(** * QuantCode: the trade journal, the watchlist editor, the dashboard batch,
      the position-size forms and the analysis core

    The React front end of the repository is embedded function by function:
    [calcPnL] (JournalView.js), [addTicker] / [removeTicker]
    (TickerManager), [fetchDashboardSummaries] (App), [calculate]
    (RiskCalculator) and [handleCalculatePositionSize] (the single-file App).
    JavaScript numbers are binary64 floats, so prices are [float]
    (primitive floats, evaluated by the kernel); JavaScript values that reach
    these functions from JSON are [jsval].

    The Python back end (quantcode_analyzer.py, app.py) is documented by the
    repository but its code is not part of the sources: the three functions of
    it that are needed are modelled from the specification, over exact
    rationals, in [Module Backend]. *)

From Stdlib Require Import ZArith QArith Qround Qminmax Qabs Lqa Floats Lia Ascii String.
From stdpp Require Import gmap strings list.

Set Warnings "-register-all".

Local Open Scope string_scope.

(** ** JavaScript values *)

Module JS.

(** The values JSON can put in a field, plus [undefined] (a property that is
    not there).  Objects are property lists read left to right; arrays are
    left out, none of the properties read below being one. *)
Inductive jsval : Type :=
  | JUndefined
  | JNull
  | JBool (b : bool)
  | JNum (x : float)
  | JStr (s : string)
  | JObj (fields : list (string * jsval)).

(** [v === 'lit'] for a string literal: no coercion, so only the very string
    is equal to it. *)
Definition strict_eq_str (v : jsval) (lit : string) : bool :=
  match v with
  | JStr s => String.eqb s lit
  | _ => false
  end.

(** [v == null]: loose equality with [null] holds for [null] and [undefined]
    and for nothing else. *)
Definition loose_eq_null (v : jsval) : bool :=
  match v with
  | JUndefined | JNull => true
  | _ => false
  end.

(** [ToString] followed by the numeric prefix parse is the identity on a
    number, except that [-0] prints as ["0"] and so comes back as [+0]. *)
Definition parseFloat_num (x : float) : float :=
  if PrimFloat.is_zero x then PrimFloat.zero else x.

(** [o.name] on a value that is neither [null] nor [undefined]: the first
    property of that name of an object, [undefined] when there is none or
    when [o] is a primitive (no primitive has a property of the names used
    here).  [None] is the [TypeError] of reading a property of [null] or
    [undefined]. *)
Fixpoint assoc (name : string) (fields : list (string * jsval)) : jsval :=
  match fields with
  | [] => JUndefined
  | (k, v) :: rest => if String.eqb k name then v else assoc name rest
  end.

Definition get_prop (o : jsval) (name : string) : option jsval :=
  match o with
  | JUndefined | JNull => None
  | JObj fields => Some (assoc name fields)
  | _ => Some JUndefined
  end.

(** SameValueZero on numbers, the equality of [Array.prototype.includes] and
    of [Map] keys: [===], except that [NaN] is equal to itself.  Like [===]
    it does not tell [+0] from [-0]. *)
Definition same_value_zero (x y : float) : bool :=
  PrimFloat.eqb x y || (PrimFloat.is_nan x && PrimFloat.is_nan y).

Section Builtins.

(** The numeric prefix parser of [parseFloat] on a string (ECMAScript's
    StrDecimalLiteral, with [NaN] when no prefix is a number) is a builtin
    of the JavaScript engine; the functions below use it as given. *)
Variable parseFloat_str : string -> float.

(** [parseFloat(v)] is [parseFloat(ToString(v))]: ["undefined"], ["null"],
    ["true"], ["false"] and ["[object Object]"] have no numeric prefix. *)
Definition parseFloat (v : jsval) : float :=
  match v with
  | JNum x => parseFloat_num x
  | JStr s => parseFloat_str s
  | JUndefined | JNull | JBool _ | JObj _ => PrimFloat.nan
  end.

End Builtins.

End JS.

Import JS.

(** ** JournalView.js: profit and loss of a journal entry *)

Module JournalView.

(** A trade as [calcPnL] reads it: the four properties it touches.  A
    property the record does not have is [JUndefined]. *)
Record TradeRecord : Type := mkTrade {
  status : jsval;
  exit_price : jsval;
  entry_price : jsval;
  trade_type : jsval
}.

Section CalcPnL.

Variable parseFloat_str : string -> float.

(** [calcPnL(trade)], statement by statement. *)
Definition calcPnL (trade : TradeRecord) : jsval :=
  if negb (strict_eq_str (status trade) "CLOSED") || loose_eq_null (exit_price trade)
  then JNull
  else
    let entry := parseFloat parseFloat_str (entry_price trade) in
    let exit := parseFloat parseFloat_str (exit_price trade) in
    if strict_eq_str (trade_type trade) "LONG" then JNum (exit - entry)%float
    else if strict_eq_str (trade_type trade) "SHORT" then JNum (entry - exit)%float
    else JNull.

End CalcPnL.

End JournalView.

(** ** TickerManager: the watchlist editor *)

Module TickerManager.

(** The two pieces of component state the editor's handlers read and write:
    [tickers] (initially the empty array) and the text field's [input]. *)
Record state : Type := mkState {
  tickers : list string;
  input : string
}.

Definition initial : state := {| tickers := []; input := "" |}.

(** [tickers.includes(sym)] on an array of strings. *)
Definition includes (l : list string) (sym : string) : bool :=
  bool_decide (sym ∈ l).

(** The handlers the user can fire, in the order they come: typing in the
    field ([setInput(e.target.value)]), the Add button or Enter, and a row's
    delete button. *)
Inductive action : Type :=
  | SetInput (text : string)
  | AddTicker
  | RemoveTicker (sym : string).

Section Handlers.

(** [String.prototype.trim] and [String.prototype.toUpperCase] are builtins of
    the engine (Unicode white space, Unicode case mapping). *)
Variable trim : string -> string.
Variable toUpperCase : string -> string.

(** [(input || '').trim().toUpperCase()]: [input] is a string, and the only
    falsy string is [''] itself. *)
Definition symbol_of (text : string) : string :=
  toUpperCase (trim (if String.eqb text "" then "" else text)).

(** [addTicker], fired from the render that shows [st], with no other
    update pending: return at once on an empty symbol; otherwise append it
    unless the array has it, and clear the field.  (The handler as it is in
    any render, with updates pending, is [Renders.addTicker] below.) *)
Definition addTicker (st : state) : state :=
  let sym := symbol_of (input st) in
  if String.eqb sym "" then st
  else
    {| tickers := if includes (tickers st) sym then tickers st
                  else tickers st ++ [sym];
       input := "" |}.

(** [removeTicker(sym)]: keep the entries [t] with [t !== sym]. *)
Definition removeTicker (sym : string) (st : state) : state :=
  {| tickers := filter (λ t, t ≠ sym) (tickers st); input := input st |}.

Definition step (st : state) (a : action) : state :=
  match a with
  | SetInput text => {| tickers := tickers st; input := text |}
  | AddTicker => addTicker st
  | RemoveTicker sym => removeTicker sym st
  end.

(** A session in which each handler fires in a render of its own, on the
    state the previous one committed, and nothing is loaded from the server;
    [Renders.run_session] below is the general session. *)
Definition run (acts : list action) (st : state) : state :=
  fold_left step acts st.

End Handlers.

(** The two builtins on ASCII text, to run the editor on examples: the six
    ASCII white-space characters, and the letters [a]-[z]. *)
Definition is_space (c : ascii) : bool :=
  let n := nat_of_ascii c in
  ((9 <=? n)%nat && (n <=? 13)%nat) || (n =? 32)%nat.

Fixpoint trim_start (s : string) : string :=
  match s with
  | String c rest => if is_space c then trim_start rest else s
  | EmptyString => EmptyString
  end.

Fixpoint trim_end (s : string) : string :=
  match s with
  | String c rest =>
      match trim_end rest with
      | EmptyString => if is_space c then EmptyString else String c EmptyString
      | kept => String c kept
      end
  | EmptyString => EmptyString
  end.

Definition ascii_trim (s : string) : string := trim_end (trim_start s).

Definition upper_char (c : ascii) : ascii :=
  let n := nat_of_ascii c in
  if ((97 <=? n)%nat && (n <=? 122)%nat)%bool then ascii_of_nat (n - 32) else c.

Fixpoint ascii_toUpperCase (s : string) : string :=
  match s with
  | String c rest => String (upper_char c) (ascii_toUpperCase rest)
  | EmptyString => EmptyString
  end.

End TickerManager.

(** ** TickerManager: renders, pending updates and the list loaded on mount *)

Module Renders.

Import TickerManager.

(** What changes the editor's state: a handler fired from the page, or the
    answer to [GET /api/tickers] of the mount effect, stored as it comes
    when it is an array ([setTickers(r.data)]; read here as an array of
    strings, an answer that is no array being no event). *)
Inductive event : Type :=
  | Fired (a : action)
  | Loaded (list : list string).

Section Handlers.

Variable trim : string -> string.
Variable toUpperCase : string -> string.

(** [addTicker] as a closure of a render: [input] and [tickers] are the
    values that render ([rendered]) shows, while the updater given to
    [setTickers] appends to [prev], the list with the updates made since
    that render ([pending]). *)
Definition addTicker (rendered pending : state) : state :=
  let sym := symbol_of trim toUpperCase (input rendered) in
  if String.eqb sym "" then pending
  else
    {| tickers := if includes (tickers rendered) sym then tickers pending
                  else tickers pending ++ [sym];
       input := "" |}.

(** One event on the pending state: [setInput(text)] and [setTickers(list)]
    replace a value, [removeTicker] filters [prev], [addTicker] is as
    above. *)
Definition step (rendered pending : state) (ev : event) : state :=
  match ev with
  | Fired (SetInput text) => {| tickers := tickers pending; input := text |}
  | Fired AddTicker => addTicker rendered pending
  | Fired (RemoveTicker sym) => removeTicker sym pending
  | Loaded list => {| tickers := list; input := input pending |}
  end.

(** The events that come between one render and the next: the handlers
    among them are closures of the render that shows [st]. *)
Definition run_render (evs : list event) (st : state) : state :=
  fold_left (step st) evs st.

(** A session: the events of one render after the other. *)
Definition run_session (renders : list (list event)) (st : state) : state :=
  fold_left (λ shown evs, run_render evs shown) renders st.

End Handlers.

(** Whether every [addTicker] among the events of a render comes before any
    other [addTicker] and before any load of that render, so that the list
    it tests still holds every entry of the list it appends to; [changed]
    tells whether such an event has come already. *)
Fixpoint adds_see_the_list (changed : bool) (evs : list event) : bool :=
  match evs with
  | [] => true
  | Fired AddTicker :: rest => negb changed && adds_see_the_list true rest
  | Loaded _ :: rest => adds_see_the_list true rest
  | Fired _ :: rest => adds_see_the_list changed rest
  end.

(** Whether the list an event loads, if it loads one, is free of duplicates. *)
Definition loads_no_duplicate (ev : event) : Prop :=
  match ev with
  | Loaded list => NoDup list
  | Fired _ => True
  end.

(** A session in which every [addTicker] sees the list it appends to and
    every loaded list is free of duplicates. *)
Definition well_rendered (renders : list (list event)) : Prop :=
  Forall (λ evs, adds_see_the_list false evs = true /\ Forall loads_no_duplicate evs)
    renders.

End Renders.

(** ** Promises and axios *)

Module Async.

(** The error an [axios.get] rejects with: the server answered with a status
    outside 2xx ([err.response] is set, [err.response.data] is the body), the
    request was sent and no answer came ([err.request] only: network failure,
    timeout), or neither. *)
Inductive axios_error : Type :=
  | ErrResponse (data : jsval)
  | ErrRequest
  | ErrSetup.

(** How an [axios.get] settles: resolved with a response whose body is
    [data], or rejected. *)
Inductive axios_result : Type :=
  | Resolved (data : jsval)
  | Rejected (err : axios_error).

(** How the promise of an [async] function settles. *)
Inductive settled (A : Type) : Type :=
  | Fulfilled (value : A)
  | Threw.
Arguments Fulfilled {A} value.
Arguments Threw {A}.

(** JavaScript truthiness, and [v || d]. *)
Definition truthy (v : jsval) : bool :=
  match v with
  | JUndefined | JNull => false
  | JBool b => b
  | JNum x => negb (PrimFloat.is_zero x || PrimFloat.is_nan x)
  | JStr s => negb (String.eqb s "")
  | JObj _ => true
  end.

Definition js_or (v d : jsval) : jsval := if truthy v then v else d.

End Async.

Import Async.

(** ** App (dashboard): one summary per watchlist ticker *)

Module Dashboard.

(** [Promise.all]: fulfilled with all the values, in order, when every
    promise is; rejected as soon as one is. *)
Fixpoint promise_all {A : Type} (ps : list (settled A)) : settled (list A) :=
  match ps with
  | [] => Fulfilled []
  | Fulfilled v :: rest =>
      match promise_all rest with
      | Fulfilled vs => Fulfilled (v :: vs)
      | Threw => Threw
      end
  | Threw :: _ => Threw
  end.

(** [Object.fromEntries]: the pairs are written left to right, so of two
    pairs with one key the later one stays. *)
Definition fromEntries (entries : list (string * jsval)) : gmap string jsval :=
  fold_left (λ m kv, <[kv.1 := kv.2]> m) entries ∅.

(** The object literal [{ final_signal: v }]. *)
Definition summary (v : jsval) : jsval := JObj [("final_signal", v)].

Section Fetch.

(** [net i t] is how the [i]-th request of the batch, the one for
    [/analyze/t], settles. *)
Variable net : nat -> string -> axios_result.

(** The callback given to [TICKERS.map]: everything the [try] block may
    throw (the rejected request, or reading [final_signal] of a body that is
    [null] or [undefined]) lands in the [catch], which returns the ['N/A']
    entry. *)
Definition summarize (i : nat) (t : string) : settled (string * jsval) :=
  match net i t with
  | Resolved data =>
      match get_prop data "final_signal" with
      | Some v => Fulfilled (t, summary v)
      | None => Fulfilled (t, summary (JStr "N/A"))
      end
  | Rejected _ => Fulfilled (t, summary (JStr "N/A"))
  end.

(** [fetchDashboardSummaries]: the value handed to [setSummaries], or
    [Threw] if the [await] of [Promise.all] throws. *)
Definition fetchDashboardSummaries (TICKERS : list string)
  : settled (gmap string jsval) :=
  match promise_all (imap summarize TICKERS) with
  | Fulfilled entries => Fulfilled (fromEntries entries)
  | Threw => Threw
  end.

End Fetch.

(** The entry a settled request leaves in the batch. *)
Definition entry_of (r : axios_result) : jsval :=
  match r with
  | Resolved data =>
      match get_prop data "final_signal" with
      | Some v => summary v
      | None => summary (JStr "N/A")
      end
  | Rejected _ => summary (JStr "N/A")
  end.

(** The map [fetchDashboardSummaries] builds, written without promises. *)
Definition summaries (net : nat -> string -> axios_result) (TICKERS : list string)
  : gmap string jsval :=
  fromEntries (imap (λ i t, (t, entry_of (net i t))) TICKERS).

(** A response body of [GET /analyze/A], in the documented shape. *)
Definition sample_analysis : jsval :=
  JObj [("ticker", JStr "A");
        ("final_signal", JStr "BUY");
        ("confidence", JStr "Moderate consensus");
        ("latest_close_price", JNum 254.5);
        ("total_score", JNum 2);
        ("signal_summary",
         JObj [("buy_votes", JNum 2); ("sell_votes", JNum 0);
               ("hold_votes", JNum 2); ("total_indicators", JNum 4)])].

(** A batch over ["A"; "B"] in which the request for A succeeds and the one
    for B fails. *)
Definition sample_net (i : nat) (t : string) : axios_result :=
  if String.eqb t "A" then Resolved sample_analysis else Rejected ErrRequest.

End Dashboard.

(** ** The position-size forms *)

Module PositionSizeApi.

(** The query of [GET /api/calculate_position_size]. *)
Record request : Type := mkRequest {
  account : float;
  risk : float;
  entry : float;
  sl : float
}.

(** What a handler leaves behind: the component state after it, the request
    it issued if it issued one, and whether an exception escaped it. *)
Record outcome (form : Type) : Type := mkOutcome {
  after : form;
  issued : option request;
  escaped : bool
}.
Arguments mkOutcome {form} after issued escaped.
Arguments after {form} o.
Arguments issued {form} o.
Arguments escaped {form} o.

(** A stand-in for the numeric parsers on the few texts the examples type
    into the forms; every other text is not a number. *)
Definition sample_number (text : string) : float :=
  if String.eqb text "100000" then 100000
  else if String.eqb text "100" then 100
  else if String.eqb text "95" then 95
  else PrimFloat.nan.

(** A server that answers every request with status 400 and an error body. *)
Definition sample_rejecting_api (req : request) : axios_result :=
  Rejected (ErrResponse (JObj [("error", JStr "Entry price and stop loss cannot be equal")])).

End PositionSizeApi.

Import PositionSizeApi.

(** *** App.js (the single-file front end): [handleCalculatePositionSize] *)

Module SingleFileApp.

Record form : Type := mkForm {
  accountSize : string;
  entryPrice : string;
  stopLossPrice : string;
  positionSizeLoading : bool;
  positionSizeResult : jsval;
  positionSizeError : jsval
}.

Definition with_error (f : form) (msg : jsval) : form :=
  {| accountSize := accountSize f; entryPrice := entryPrice f;
     stopLossPrice := stopLossPrice f;
     positionSizeLoading := positionSizeLoading f;
     positionSizeResult := positionSizeResult f;
     positionSizeError := msg |}.

(** After [setPositionSizeLoading(true); setPositionSizeError(null);
    setPositionSizeResult(null)], the [try] and the [finally]: loading is
    off again, and the result and the error are what the [try] or the
    [catch] set, [null] otherwise. *)
Definition finished (f : form) (result error : jsval) : form :=
  {| accountSize := accountSize f; entryPrice := entryPrice f;
     stopLossPrice := stopLossPrice f;
     positionSizeLoading := false;
     positionSizeResult := result;
     positionSizeError := error |}.

Section Handler.

Variable trim : string -> string.
Variable parseFloat_str : string -> float.

(** The server behind [axios.get]. *)
Variable api : request -> axios_result.

Definition handleCalculatePositionSize (f : form) : outcome form :=
  if String.eqb (trim (accountSize f)) "" || String.eqb (trim (entryPrice f)) ""
     || String.eqb (trim (stopLossPrice f)) ""
  then mkOutcome (with_error f (JStr "Please fill in all fields")) None false
  else
    let account := parseFloat_str (accountSize f) in
    let entry := parseFloat_str (entryPrice f) in
    let stopLoss := parseFloat_str (stopLossPrice f) in
    if PrimFloat.is_nan account || PrimFloat.is_nan entry || PrimFloat.is_nan stopLoss
    then mkOutcome (with_error f (JStr "Please enter valid numeric values")) None false
    else if PrimFloat.leb account 0 || PrimFloat.leb entry 0 || PrimFloat.leb stopLoss 0
    then mkOutcome (with_error f (JStr "All values must be greater than 0")) None false
    else
      let req := {| account := account; risk := 1; entry := entry; sl := stopLoss |} in
      match api req with
      | Resolved data => mkOutcome (finished f data JNull) (Some req) false
      | Rejected (ErrResponse data) =>
          match get_prop data "error" with
          | Some e =>
              mkOutcome
                (finished f JNull (js_or e (JStr "Position size calculation failed")))
                (Some req) false
          | None => mkOutcome (finished f JNull JNull) (Some req) true
          end
      | Rejected ErrRequest =>
          mkOutcome
            (finished f JNull
               (JStr "Unable to connect to calculation server. Please check if the backend is running."))
            (Some req) false
      | Rejected ErrSetup =>
          mkOutcome
            (finished f JNull (JStr "An unexpected error occurred during calculation"))
            (Some req) false
      end.

(** The three checks that come before the request, as one condition, and
    the request that follows them. *)
Definition passes_validation (f : form) : bool :=
  negb (String.eqb (trim (accountSize f)) "" || String.eqb (trim (entryPrice f)) ""
        || String.eqb (trim (stopLossPrice f)) "")
  && negb (PrimFloat.is_nan (parseFloat_str (accountSize f))
           || PrimFloat.is_nan (parseFloat_str (entryPrice f))
           || PrimFloat.is_nan (parseFloat_str (stopLossPrice f)))
  && negb (PrimFloat.leb (parseFloat_str (accountSize f)) 0
           || PrimFloat.leb (parseFloat_str (entryPrice f)) 0
           || PrimFloat.leb (parseFloat_str (stopLossPrice f)) 0).

Definition request_of (f : form) : request :=
  {| account := parseFloat_str (accountSize f); risk := 1;
     entry := parseFloat_str (entryPrice f);
     sl := parseFloat_str (stopLossPrice f) |}.

End Handler.

End SingleFileApp.

(** *** RiskCalculator: [calculate] *)

Module RiskCalculator.

Record form : Type := mkForm {
  accountSize : string;
  entryPrice : string;
  stopLossPrice : string;
  loading : bool;
  result : jsval;
  error : jsval
}.

Definition with_error (f : form) (msg : jsval) : form :=
  {| accountSize := accountSize f; entryPrice := entryPrice f;
     stopLossPrice := stopLossPrice f; loading := loading f;
     result := result f; error := msg |}.

Definition finished (f : form) (res err : jsval) : form :=
  {| accountSize := accountSize f; entryPrice := entryPrice f;
     stopLossPrice := stopLossPrice f; loading := false;
     result := res; error := err |}.

Section Handler.

(** [Number(v)] on a string is a builtin (StringNumericLiteral, [NaN] when
    the whole string is not one, [0] when it is blank). *)
Variable Number_str : string -> float.

Variable api : request -> axios_result.

(** [isInvalid = (v) => v === '' || isNaN(Number(v)) || Number(v) <= 0]. *)
Definition isInvalid (v : string) : bool :=
  String.eqb v "" || PrimFloat.is_nan (Number_str v) || PrimFloat.leb (Number_str v) 0.

(** [err.response?.data?.error]. *)
Definition response_error (err : axios_error) : jsval :=
  match err with
  | ErrResponse data =>
      match get_prop data "error" with
      | Some e => e
      | None => JUndefined
      end
  | ErrRequest | ErrSetup => JUndefined
  end.

Definition calculate (f : form) : outcome form :=
  if isInvalid (accountSize f) || isInvalid (entryPrice f) || isInvalid (stopLossPrice f)
  then mkOutcome (with_error f (JStr "Please enter valid values (> 0)")) None false
  else
    let req := {| account := Number_str (accountSize f); risk := 1;
                  entry := Number_str (entryPrice f);
                  sl := Number_str (stopLossPrice f) |} in
    match api req with
    | Resolved data => mkOutcome (finished f data JNull) (Some req) false
    | Rejected err =>
        mkOutcome
          (finished f JNull (js_or (response_error err) (JStr "Calculation failed")))
          (Some req) false
    end.

(** The request [calculate] sends once the three fields are valid. *)
Definition calculator_request (f : form) : request :=
  {| account := Number_str (accountSize f); risk := 1;
     entry := Number_str (entryPrice f);
     sl := Number_str (stopLossPrice f) |}.

End Handler.

End RiskCalculator.

(** ** The analysis core (Python back end) *)

Module Backend.

Local Open Scope Q_scope.

(** The code of the back end is not in the sources; what follows is written
    from the specification, with prices as exact rationals. *)

(** *** Data model *)

(** Modelled from the spec: the signal of an indicator and of the consensus
    (section 3; the Python code is missing). *)
Inductive Signal : Type := BUY | SELL | HOLD.

(** Modelled from the spec: [IndicatorResult] of section 3 (the Python code
    is missing), without its [raw_values]. *)
Record IndicatorResult : Type := mkIndicator {
  name : string;
  signal : Signal;
  score : Z;
  details : string
}.

(** Modelled from the spec: [Bar] of section 3 (the Python code is
    missing). *)
Record Bar : Type := mkBar {
  open : Q;
  high : Q;
  low : Q;
  close : Q;
  timestamp : Z
}.

(** Modelled from the spec: [HeikenAshiBar] of section 3 (the Python code
    is missing). *)
Record HeikenAshiBar : Type := mkHA {
  ha_open : Q;
  ha_high : Q;
  ha_low : Q;
  ha_close : Q
}.

(** Modelled from the spec: [PositionSizePlan] of section 3 (the Python
    code is missing); a share count is an integer. *)
Record PositionSizePlan : Type := mkPlan {
  risk_amount : Q;
  risk_per_share : Q;
  max_shares : Z;
  total_investment : Q
}.

(** Modelled from the spec: the two failures of the position-size calculator
    (section 4.4; the Python code is missing). *)
Inductive CalcError : Type :=
  | ValidationError
  | InvalidRiskParametersError.

(** Modelled from the spec: the error taxonomy of section 7 (the Python code
    is missing). *)
Inductive ErrorKind : Type :=
  | KValidation
  | KInsufficientData
  | KInvalidBar
  | KUpstreamData
  | KNotFound.

(** Modelled from the spec: the kind of each calculator failure; section 7
    lists both non-positive inputs and equal entry and stop under
    [ValidationError] (the Python code is missing). *)
Definition kind_of (e : CalcError) : ErrorKind :=
  match e with
  | ValidationError | InvalidRiskParametersError => KValidation
  end.

(** *** Consensus engine *)

(** Modelled from the spec: whether a result votes for [s] (section 4.3,
    tallying by signal value; the Python code is missing). *)
Definition is_signal (s : Signal) (r : IndicatorResult) : bool :=
  match s, signal r with
  | BUY, BUY | SELL, SELL | HOLD, HOLD => true
  | _, _ => false
  end.

(** Modelled from the spec: the number of votes for [s] (section 4.3; the
    Python code is missing). *)
Definition votes (s : Signal) (results : list IndicatorResult) : nat :=
  length (filter (λ r, is_signal s r = true) results).

(** Modelled from the spec: [vote_counts] of [ConsensusResult] (section 3;
    the Python code is missing). *)
Record VoteCounts : Type := mkVotes {
  buy_votes : nat;
  sell_votes : nat;
  hold_votes : nat
}.

(** Modelled from the spec: the part of [ConsensusResult] that the decision
    rule of section 4.3 fixes (the Python code is missing): the signal, the
    score and the tally. *)
Record Consensus : Type := mkConsensus {
  final_signal : Signal;
  total_score : Z;
  vote_counts : VoteCounts
}.

(** Modelled from the spec: [get_final_signal] of quantcode_analyzer.py, the
    consensus engine, whose code is not in the sources.  Section 4.3: tally
    the votes by counting signal values; BUY with at least two BUY votes and
    more BUY than SELL votes, SELL with at least two SELL votes and more SELL
    than BUY votes, HOLD otherwise; the total score is the sum of the
    scores. *)
Definition get_final_signal (results : list IndicatorResult) : Consensus :=
  let buy := votes BUY results in
  let sell := votes SELL results in
  let hold := votes HOLD results in
  {| final_signal :=
       if ((2 <=? buy)%nat && (sell <? buy)%nat)%bool then BUY
       else if ((2 <=? sell)%nat && (buy <? sell)%nat)%bool then SELL
       else HOLD;
     total_score := fold_right Z.add 0%Z (map score results);
     vote_counts := {| buy_votes := buy; sell_votes := sell; hold_votes := hold |} |}.

(** *** Position sizing *)

(** Modelled from the spec: the input check [x > 0] of section 4.4 (the
    Python code is missing). *)
Definition positive (x : Q) : bool := negb (Qle_bool x 0).

(** Modelled from the spec: [calculate_position_size] of the back end, whose
    code is not in the sources.  Section 4.4: every input positive, else
    [ValidationError]; entry different from stop, else
    [InvalidRiskParametersError]; then the four quantities of the plan. *)
Definition calculate_position_size
    (account_size risk_percent entry_price stop_loss_price : Q)
  : CalcError + PositionSizePlan :=
  if negb (positive account_size && positive risk_percent
           && positive entry_price && positive stop_loss_price)
  then inl ValidationError
  else if Qeq_bool entry_price stop_loss_price
  then inl InvalidRiskParametersError
  else
    let risk_amount := account_size * risk_percent / 100 in
    let risk_per_share := Qabs (entry_price - stop_loss_price) in
    let max_shares := Qfloor (risk_amount / risk_per_share) in
    inr {| risk_amount := risk_amount;
           risk_per_share := risk_per_share;
           max_shares := max_shares;
           total_investment := inject_Z max_shares * entry_price |}.

(** *** Heiken-Ashi *)

(** Modelled from the spec: the maximum of three prices, as in
    [max(high, ha_open, ha_close)] (section 8; the Python code is missing). *)
Definition max3 (a b c : Q) : Q := Qmax a (Qmax b c).

(** Modelled from the spec: the minimum of three prices, as in
    [min(low, ha_open, ha_close)] (section 8; the Python code is missing). *)
Definition min3 (a b c : Q) : Q := Qmin a (Qmin b c).

(** Modelled from the spec: one step of the Heiken-Ashi loop (sections 3 and
    8; the Python code is missing): the candle of bar [b], given the candle
    before it ([None] for the first bar, which seeds [ha_open] from its own
    open and close). *)
Definition ha_step (prev : option HeikenAshiBar) (b : Bar) : HeikenAshiBar :=
  let c := (open b + high b + low b + close b) / 4 in
  let o := match prev with
           | None => (open b + close b) / 2
           | Some p => (ha_open p + ha_close p) / 2
           end in
  {| ha_open := o;
     ha_high := max3 (high b) o c;
     ha_low := min3 (low b) o c;
     ha_close := c |}.

(** Modelled from the spec: the loop itself, oldest bar first, carrying the
    previous candle (section 9; the Python code is missing). *)
Fixpoint ha_loop (prev : option HeikenAshiBar) (bars : list Bar)
  : list HeikenAshiBar :=
  match bars with
  | [] => []
  | b :: rest => let h := ha_step prev b in h :: ha_loop (Some h) rest
  end.

(** Modelled from the spec: the Heiken-Ashi transform inside
    [analyze_heiken_ashi] of quantcode_analyzer.py, whose code is not in the
    sources.  Sections 3 and 9: one candle per bar, computed oldest to newest
    by a loop that carries the previous candle. *)
Definition heiken_ashi (bars : list Bar) : list HeikenAshiBar :=
  ha_loop None bars.

End Backend.

(** ** Signal chips: [signalToChip], [getSignalColor] and the dashboard rows *)

Module SignalChip.

(** The object [signalToChip] returns in Dashboard.js.  The copies in
    AnalysisPanel.js, AnalysisBreakdown.js and the analysis view add an
    [icon], a React element, to the same [label] and [className]. *)
Record chip : Type := mkChip {
  label : string;
  className : string
}.

(** The chip of a signal that is none of the three. *)
Definition no_signal_chip : chip := mkChip "N/A" "chip-neutral".

Section Chips.

(** [String.prototype.toLowerCase] is a builtin of the engine. *)
Variable toLowerCase : string -> string.

(** [signalToChip(signal)]: [(signal || '')] is [signal] when it is truthy
    and [''] otherwise; calling [toLowerCase] on what is not a string is a
    [TypeError], here [None]. *)
Definition signalToChip (signal : jsval) : option chip :=
  match js_or signal (JStr "") with
  | JStr text =>
      let s := toLowerCase text in
      Some (if String.eqb s "buy" then mkChip "BUY" "chip-buy"
            else if String.eqb s "sell" then mkChip "SELL" "chip-sell"
            else if String.eqb s "hold" then mkChip "HOLD" "chip-hold"
            else mkChip "N/A" "chip-neutral")
  | _ => None
  end.

(** [getSignalColor(signal)] of App.js: [signal?.toLowerCase()] is
    [undefined] for [null] and [undefined], the lower-cased text for a
    string, and a [TypeError] for every other value. *)
Definition getSignalColor (signal : jsval) : option string :=
  match signal with
  | JUndefined | JNull => Some "#70a1ff"
  | JStr text =>
      let s := toLowerCase text in
      Some (if String.eqb s "buy" then "#00ff88"
            else if String.eqb s "sell" then "#ff4757"
            else if String.eqb s "hold" then "#ffa502"
            else "#70a1ff")
  | _ => None
  end.

(** [summaries[t]?.final_signal] in the dashboard: [undefined] when the
    summaries have nothing for [t] or what they have is [null]. *)
Definition row_signal (summaries : gmap string jsval) (t : string) : jsval :=
  match summaries !! t with
  | Some entry =>
      match get_prop entry "final_signal" with
      | Some v => v
      | None => JUndefined
      end
  | None => JUndefined
  end.

(** The chip the dashboard draws next to ticker [t]. *)
Definition row_chip (summaries : gmap string jsval) (t : string) : option chip :=
  signalToChip (row_signal summaries t).

End Chips.

(** [toLowerCase] on ASCII text, to run the chips on examples. *)
Definition lower_char (c : ascii) : ascii :=
  let n := nat_of_ascii c in
  if ((65 <=? n)%nat && (n <=? 90)%nat)%bool then ascii_of_nat (n + 32) else c.

Fixpoint ascii_toLowerCase (s : string) : string :=
  match s with
  | String c rest => String (lower_char c) (ascii_toLowerCase rest)
  | EmptyString => EmptyString
  end.

End SignalChip.

(** ** App (dashboard): saving the watchlist *)

Module WatchlistApp.

(** The state of [App] that [handleTickersSaved] reads and writes. *)
Record app : Type := mkApp {
  TICKERS : list string;
  summaries : gmap string jsval;
  selectedTicker : string;
  settingsOpen : bool
}.

Section Saved.

Variable net : nat -> string -> axios_result.

(** [handleTickersSaved(list)].  [fetchDashboardSummaries] is the function
    of the render in which the handler was created, so the requests it makes
    are for that render's [TICKERS], whatever [setTICKERS] was just given;
    its result is what [setSummaries] receives. *)
Definition handleTickersSaved (st : app) (list : list string) : app :=
  match list with
  | [] =>
      {| TICKERS := TICKERS st; summaries := summaries st;
         selectedTicker := selectedTicker st; settingsOpen := false |}
  | first :: _ =>
      {| TICKERS := list;
         summaries :=
           match Dashboard.fetchDashboardSummaries net (TICKERS st) with
           | Fulfilled m => m
           | Threw => summaries st
           end;
         selectedTicker :=
           if TickerManager.includes list (selectedTicker st) then selectedTicker st
           else first;
         settingsOpen := false |}
  end.

End Saved.

(** The editor's panel: the state of the claims' editor, with the three
    flags [saveChanges] sets. *)
Record panel : Type := mkPanel {
  editor : TickerManager.state;
  loading : bool;
  error : option string;
  success : option string
}.

Section Save.

(** The state of the component that owns the editor, and its [onSaved]
    callback ([None]: no function was passed; a callback that throws gives
    [Threw]). *)
Variable parent : Type.
Variable onSaved : option (list string -> parent -> settled parent).

(** How [axios.post] of the list settles. *)
Variable post : list string -> axios_result.

(** [saveChanges]: the flags are reset, the list is posted, and on success
    the message is set and the callback is called with the list; whatever
    the [try] block throws sets the error; loading is off at the end. *)
Definition saveChanges (p : panel) (up : parent) : panel * parent :=
  match post (TickerManager.tickers (editor p)) with
  | Resolved _ =>
      match onSaved with
      | Some callback =>
          match callback (TickerManager.tickers (editor p)) up with
          | Fulfilled up' =>
              ({| editor := editor p; loading := false; error := None;
                  success := Some "Watchlist updated." |}, up')
          | Threw =>
              ({| editor := editor p; loading := false;
                  error := Some "Failed to save tickers.";
                  success := Some "Watchlist updated." |}, up)
          end
      | None =>
          ({| editor := editor p; loading := false; error := None;
              success := Some "Watchlist updated." |}, up)
      end
  | Rejected _ =>
      ({| editor := editor p; loading := false;
          error := Some "Failed to save tickers."; success := None |}, up)
  end.

End Save.

(** The callback [App] passes to the editor: [handleTickersSaved], which
    only sets state and so never throws. *)
Definition onSaved_of_App (net : nat -> string -> axios_result)
  : option (list string -> app -> settled app) :=
  Some (fun list st => Fulfilled (handleTickersSaved net st list)).

End WatchlistApp.

(** ** App.js (the single-file front end): [handleAnalyze] *)

Module AnalyzeForm.

Record form : Type := mkForm {
  ticker : string;
  loading : bool;
  results : jsval;
  error : jsval;
  hasAnalyzed : bool
}.

(** What [handleAnalyze] leaves behind: the state after it, the symbol whose
    analysis it requested if it requested one, and whether an exception
    escaped it. *)
Record outcome : Type := mkOutcome {
  after : form;
  requested : option string;
  escaped : bool
}.

Section Handler.

Variable trim : string -> string.
Variable toUpperCase : string -> string.

(** The server behind [GET /analyze/<symbol>]. *)
Variable analyze : string -> axios_result.

(** The [try], [catch] and [finally] once the request is out: loading is
    off, [results] and [error] were reset to [null] and are what the [try]
    or the [catch] set since. *)
Definition settled_form (f : form) (res err : jsval) (analyzed : bool) : form :=
  {| ticker := ticker f; loading := false; results := res; error := err;
     hasAnalyzed := analyzed |}.

Definition handleAnalyze (f : form) : outcome :=
  if String.eqb (trim (ticker f)) ""
  then
    mkOutcome
      {| ticker := ticker f; loading := loading f; results := results f;
         error := JStr "Please enter a valid ticker symbol";
         hasAnalyzed := hasAnalyzed f |}
      None false
  else
    let symbol := toUpperCase (trim (ticker f)) in
    match analyze symbol with
    | Resolved data => mkOutcome (settled_form f data JNull true) (Some symbol) false
    | Rejected (ErrResponse data) =>
        match get_prop data "error" with
        | Some e =>
            mkOutcome
              (settled_form f JNull (js_or e (JStr "Analysis failed")) (hasAnalyzed f))
              (Some symbol) false
        | None => mkOutcome (settled_form f JNull JNull (hasAnalyzed f)) (Some symbol) true
        end
    | Rejected ErrRequest =>
        mkOutcome
          (settled_form f JNull
             (JStr "Unable to connect to analysis server. Please check if the backend is running.")
             (hasAnalyzed f))
          (Some symbol) false
    | Rejected ErrSetup =>
        mkOutcome
          (settled_form f JNull (JStr "An unexpected error occurred") (hasAnalyzed f))
          (Some symbol) false
    end.

End Handler.

End AnalyzeForm.

(** ** JournalView.js: the rows of the journal and closing a trade *)

Module JournalRows.

Definition NeonGreen : string := "#39FF14".
Definition NeonRed : string := "#FF073A".
Definition NeonBlue : string := "#00FFFF".

Section Cells.

(** [Number(text)] and [Number.prototype.toFixed(2)] are builtins. *)
Variable Number_str : string -> float.
Variable toFixed2 : float -> string.

(** [ToNumber], the coercion [>] and [<] apply to an operand that is compared
    with a number. *)
Definition ToNumber (v : jsval) : float :=
  match v with
  | JUndefined => PrimFloat.nan
  | JNull => 0
  | JBool b => if b then 1 else 0
  | JNum x => x
  | JStr s => Number_str s
  | JObj _ => PrimFloat.nan
  end.

(** The colour of [PnLCell]:
    [value > 0 ? NeonGreen : value < 0 ? NeonRed : NeonBlue]. *)
Definition PnLCell_color (value : jsval) : string :=
  if PrimFloat.ltb 0 (ToNumber value) then NeonGreen
  else if PrimFloat.ltb (ToNumber value) 0 then NeonRed
  else NeonBlue.

(** The text of the cell: [pnl !== null ? pnl.toFixed(2) : '-'], a
    [TypeError] ([None]) when [pnl] is neither [null] nor a number. *)
Definition PnLCell_text (pnl : jsval) : option string :=
  match pnl with
  | JNull => Some "-"
  | JNum x => Some (toFixed2 x)
  | _ => None
  end.

(** The background of [StatusChip]. *)
Definition StatusChip_color (status : jsval) : string :=
  if strict_eq_str status "OPEN" then NeonGreen else NeonRed.

(** What a row of the table shows of a trade, besides its fields as they
    are: the status chip, the P&L cell, and the Close Trade button. *)
Record row : Type := mkRow {
  status_color : string;
  pnl_text : option string;
  pnl_color : string;
  close_button : bool
}.

Variable parseFloat_str : string -> float.

Definition render_row (trade : JournalView.TradeRecord) : row :=
  let pnl := JournalView.calcPnL parseFloat_str trade in
  {| status_color := StatusChip_color (JournalView.status trade);
     pnl_text := PnLCell_text pnl;
     pnl_color := PnLCell_color pnl;
     close_button := strict_eq_str (JournalView.status trade) "OPEN" |}.

End Cells.

(** The state of the Close Trade dialog. *)
Record dialog : Type := mkDialog {
  modalOpen : bool;
  selectedTrade : jsval;
  exitPrice : string;
  closing : bool;
  error : jsval
}.

(** The [PUT /api/trades/<id>] the dialog sends. *)
Record close_request : Type := mkClose {
  trade_id : jsval;
  sent_exit_price : float
}.

(** How the [fetch] settles: a response with [res.ok], a response without
    it, whose body [res.json()] reads ([None] when that fails), or a rejected
    promise. *)
Inductive fetch_result : Type :=
  | FetchOk
  | FetchNotOk (body : option jsval)
  | FetchFailed.

(** What [handleConfirmClose] leaves behind: the dialog after it, the
    request it sent if it sent one, and whether it called [fetchTrades]. *)
Record close_outcome : Type := mkCloseOutcome {
  dialog_after : dialog;
  sent : option close_request;
  refetched : bool
}.

Section Close.

Variable Number_str : string -> float.
Variable parseFloat_str : string -> float.
Variable server : close_request -> fetch_result.

(** [handleCloseTrade(trade)] and [handleModalClose()]. *)
Definition handleCloseTrade (trade : jsval) (d : dialog) : dialog :=
  {| modalOpen := true; selectedTrade := trade; exitPrice := "";
     closing := closing d; error := JStr "" |}.

Definition handleModalClose (d : dialog) : dialog :=
  {| modalOpen := false; selectedTrade := JNull; exitPrice := "";
     closing := closing d; error := JStr "" |}.

Definition with_error (d : dialog) (msg : jsval) (busy : bool) : dialog :=
  {| modalOpen := modalOpen d; selectedTrade := selectedTrade d;
     exitPrice := exitPrice d; closing := busy; error := msg |}.

(** [handleConfirmClose]: the [try] starts with [selectedTrade.id], so
    everything from there on that throws ends in the [catch]. *)
Definition handleConfirmClose (d : dialog) : close_outcome :=
  if String.eqb (exitPrice d) "" || PrimFloat.is_nan (Number_str (exitPrice d))
  then
    mkCloseOutcome (with_error d (JStr "Please enter a valid exit price.") (closing d))
      None false
  else
    match get_prop (selectedTrade d) "id" with
    | None => mkCloseOutcome (with_error d (JStr "Network error.") false) None false
    | Some id =>
        let req := {| trade_id := id; sent_exit_price := parseFloat_str (exitPrice d) |} in
        match server req with
        | FetchOk =>
            mkCloseOutcome
              {| modalOpen := false; selectedTrade := JNull; exitPrice := "";
                 closing := false; error := JStr "" |}
              (Some req) true
        | FetchNotOk (Some err) =>
            match get_prop err "error" with
            | Some e =>
                mkCloseOutcome
                  (with_error d (js_or e (JStr "Failed to close trade.")) false)
                  (Some req) false
            | None =>
                mkCloseOutcome (with_error d (JStr "Network error.") false)
                  (Some req) false
            end
        | FetchNotOk None | FetchFailed =>
            mkCloseOutcome (with_error d (JStr "Network error.") false) (Some req) false
        end
    end.

End Close.

End JournalRows.

(** ** AnalysisBreakdown.js: [prettyName] *)

Module Breakdown.

(** The class [\w] of a regular expression without the [u] flag: ASCII
    letters, digits and the underscore.  Every byte of a character outside
    ASCII is outside it, as the character is in JavaScript. *)
Definition is_word (c : ascii) : bool :=
  let n := nat_of_ascii c in
  ((48 <=? n)%nat && (n <=? 57)%nat) || ((65 <=? n)%nat && (n <=? 90)%nat)
  || ((97 <=? n)%nat && (n <=? 122)%nat) || (n =? 95)%nat.

(** [key.replace(/_/g, ' ')]. *)
Fixpoint underscores_to_spaces (s : string) : string :=
  match s with
  | String c rest =>
      String (if Ascii.eqb c "_" then " "%char else c) (underscores_to_spaces rest)
  | EmptyString => EmptyString
  end.

(** [s.replace(/\b\w/g, c => c.toUpperCase())]: a word character is
    replaced when the one before it is not a word character, or when it is
    the first; [after_word] tells whether the character before is one. *)
Fixpoint capitalize_words (after_word : bool) (s : string) : string :=
  match s with
  | String c rest =>
      String (if is_word c && negb after_word then TickerManager.upper_char c else c)
        (capitalize_words (is_word c) rest)
  | EmptyString => EmptyString
  end.

Definition prettyName (key : string) : string :=
  capitalize_words false (underscores_to_spaces key).

(** Whether a text is free of underscores. *)
Fixpoint no_underscore (s : string) : bool :=
  match s with
  | String c rest => negb (Ascii.eqb c "_") && no_underscore rest
  | EmptyString => true
  end.

End Breakdown.

(** * Properties *)

(** ** JavaScript values *)

Section JSFacts.

Lemma strict_eq_str_true (v : jsval) (lit : string) :
  strict_eq_str v lit = true <-> v = JStr lit.
Proof.
  destruct v; simpl; try (split; [discriminate | congruence]).
  rewrite String.eqb_eq. split; congruence.
Qed.

Lemma strict_eq_str_false (v : jsval) (lit : string) :
  strict_eq_str v lit = false <-> v <> JStr lit.
Proof.
  rewrite <- strict_eq_str_true. destruct (strict_eq_str v lit); split; congruence.
Qed.

Lemma loose_eq_null_true (v : jsval) :
  loose_eq_null v = true <-> v = JNull \/ v = JUndefined.
Proof.
  destruct v; simpl; split; intros H; try tauto; try discriminate;
    destruct H; discriminate.
Qed.

Lemma loose_eq_null_false (v : jsval) :
  loose_eq_null v = false <-> v <> JNull /\ v <> JUndefined.
Proof.
  destruct v; simpl; split; intros H; try discriminate; try tauto;
    repeat split; congruence.
Qed.

(** A float that compares equal to zero is one of the two zeros. *)
Lemma is_zero_spec (x : float) :
  PrimFloat.is_zero x = true <-> exists s, Prim2SF x = S754_zero s.
Proof.
  unfold PrimFloat.is_zero. rewrite FloatAxioms.eqb_spec.
  change (Prim2SF PrimFloat.zero) with (S754_zero false).
  unfold SFeqb, SFcompare.
  destruct (Prim2SF x) as [s | s | | s m e]; split;
    try (intros _; eexists; reflexivity); try discriminate;
    try (intros [s' Hs]; discriminate);
    destruct s; discriminate.
Qed.

Lemma same_value_zero_refl (x : float) : same_value_zero x x = true.
Proof.
  unfold same_value_zero, PrimFloat.is_nan.
  destruct (PrimFloat.eqb x x); reflexivity.
Qed.

Lemma same_value_zero_zeros (x y : float) :
  PrimFloat.is_zero x = true -> PrimFloat.is_zero y = true ->
  same_value_zero x y = true.
Proof.
  intros [sx Hx]%is_zero_spec [sy Hy]%is_zero_spec.
  unfold same_value_zero. rewrite FloatAxioms.eqb_spec, Hx, Hy. reflexivity.
Qed.

(** Subtracting the re-parsed operands gives the difference of the operands,
    up to the sign of a zero: [parseFloat] only ever turns [-0] into [+0]. *)
Lemma sub_parseFloat_num (x y : float) :
  same_value_zero (parseFloat_num x - parseFloat_num y)%float (x - y)%float = true.
Proof.
  unfold parseFloat_num.
  destruct (PrimFloat.is_zero x) eqn:Zx, (PrimFloat.is_zero y) eqn:Zy.
  - apply same_value_zero_zeros; [reflexivity |].
    apply is_zero_spec in Zx as [sx Hx]. apply is_zero_spec in Zy as [sy Hy].
    apply is_zero_spec. rewrite sub_spec, Hx, Hy.
    destruct sx, sy; eexists; reflexivity.
  - replace (PrimFloat.zero - y)%float with (x - y)%float;
      [apply same_value_zero_refl |].
    apply Prim2SF_inj. rewrite !sub_spec.
    change (Prim2SF PrimFloat.zero) with (S754_zero false).
    apply is_zero_spec in Zx as [sx ->].
    destruct (Prim2SF y) as [s | s | | s m e] eqn:Hy; try reflexivity.
    exfalso. assert (PrimFloat.is_zero y = true) by (apply is_zero_spec; eauto).
    congruence.
  - replace (x - PrimFloat.zero)%float with (x - y)%float;
      [apply same_value_zero_refl |].
    apply Prim2SF_inj. rewrite !sub_spec.
    change (Prim2SF PrimFloat.zero) with (S754_zero false).
    apply is_zero_spec in Zy as [sy ->].
    destruct (Prim2SF x) as [s | s | | s m e] eqn:Hx; try reflexivity.
    exfalso. assert (PrimFloat.is_zero x = true) by (apply is_zero_spec; eauto).
    congruence.
  - apply same_value_zero_refl.
Qed.

End JSFacts.

(** ** JournalView.js *)

Section JournalViewFacts.

Import JournalView.

Variable parseFloat_str : string -> float.

Local Abbreviation calcPnL := (JournalView.calcPnL parseFloat_str).
Local Abbreviation parseFloat := (JS.parseFloat parseFloat_str).

(** The first [return] is not taken exactly when the status is the string
    ['CLOSED'] and the exit price is neither [null] nor [undefined]. *)
Lemma calcPnL_guard (t : TradeRecord) :
  negb (strict_eq_str (status t) "CLOSED") || loose_eq_null (exit_price t) = false
  <-> status t = JStr "CLOSED" /\ exit_price t <> JNull /\ exit_price t <> JUndefined.
Proof.
  rewrite orb_false_iff, negb_false_iff, strict_eq_str_true, loose_eq_null_false.
  tauto.
Qed.

Lemma calcPnL_long (t : TradeRecord) :
  status t = JStr "CLOSED" -> exit_price t <> JNull -> exit_price t <> JUndefined ->
  trade_type t = JStr "LONG" ->
  calcPnL t = JNum (parseFloat (exit_price t) - parseFloat (entry_price t))%float.
Proof.
  intros Hs Hn Hu Ht. unfold JournalView.calcPnL.
  assert (G := proj2 (calcPnL_guard t) (conj Hs (conj Hn Hu))).
  rewrite G, Ht. reflexivity.
Qed.

Lemma calcPnL_short (t : TradeRecord) :
  status t = JStr "CLOSED" -> exit_price t <> JNull -> exit_price t <> JUndefined ->
  trade_type t = JStr "SHORT" ->
  calcPnL t = JNum (parseFloat (entry_price t) - parseFloat (exit_price t))%float.
Proof.
  intros Hs Hn Hu Ht. unfold JournalView.calcPnL.
  assert (G := proj2 (calcPnL_guard t) (conj Hs (conj Hn Hu))).
  rewrite G, Ht. reflexivity.
Qed.

(** On a number that is not a zero, [parseFloat] is the identity. *)
Lemma parseFloat_num_nonzero (x : float) :
  PrimFloat.is_zero x = false -> parseFloat_num x = x.
Proof. unfold parseFloat_num. intros ->. reflexivity. Qed.

(** C1. A closed trade with an exit price gets [exit - entry] when it is LONG
    and [entry - exit] when it is SHORT, the two prices being read through
    [parseFloat].  When the prices are numbers the result is the difference
    of the prices themselves: the very float when neither price is a zero,
    and up to the sign of a zero result otherwise.  Entry 100 and exit 120
    give 20 for a LONG trade and -20 for a SHORT one. *)
Theorem calcPnL_closed :
  (forall t : TradeRecord,
     status t = JStr "CLOSED" -> exit_price t <> JNull -> exit_price t <> JUndefined ->
     (trade_type t = JStr "LONG" ->
        calcPnL t = JNum (parseFloat (exit_price t) - parseFloat (entry_price t))%float)
     /\ (trade_type t = JStr "SHORT" ->
        calcPnL t = JNum (parseFloat (entry_price t) - parseFloat (exit_price t))%float)
     /\ (forall entry exit : float,
           entry_price t = JNum entry -> exit_price t = JNum exit ->
           (trade_type t = JStr "LONG" ->
              exists pnl, calcPnL t = JNum pnl
                /\ same_value_zero pnl (exit - entry)%float = true
                /\ (PrimFloat.is_zero entry = false -> PrimFloat.is_zero exit = false ->
                    pnl = (exit - entry)%float))
           /\ (trade_type t = JStr "SHORT" ->
              exists pnl, calcPnL t = JNum pnl
                /\ same_value_zero pnl (entry - exit)%float = true
                /\ (PrimFloat.is_zero entry = false -> PrimFloat.is_zero exit = false ->
                    pnl = (entry - exit)%float))))
  /\ calcPnL (mkTrade (JStr "CLOSED") (JNum 120) (JNum 100) (JStr "LONG")) = JNum 20
  /\ calcPnL (mkTrade (JStr "CLOSED") (JNum 120) (JNum 100) (JStr "SHORT")) = JNum (-20).
Proof.
  split; [| split; reflexivity].
  intros t Hs Hn Hu. split; [| split].
  - now apply calcPnL_long.
  - now apply calcPnL_short.
  - intros entry exit He Hx. split; intros Ht.
    + exists (parseFloat_num exit - parseFloat_num entry)%float.
      rewrite (calcPnL_long t Hs Hn Hu Ht), He, Hx. simpl.
      split; [reflexivity | split; [apply sub_parseFloat_num |]].
      intros Ze Zx. now rewrite !parseFloat_num_nonzero.
    + exists (parseFloat_num entry - parseFloat_num exit)%float.
      rewrite (calcPnL_short t Hs Hn Hu Ht), He, Hx. simpl.
      split; [reflexivity | split; [apply sub_parseFloat_num |]].
      intros Ze Zx. now rewrite !parseFloat_num_nonzero.
Qed.

(** The first [return]: taken, with [null], as soon as the status is not
    ['CLOSED'] or the exit price is [null] or missing. *)
Lemma calcPnL_first_return (t : TradeRecord) :
  status t <> JStr "CLOSED" \/ exit_price t = JNull \/ exit_price t = JUndefined ->
  calcPnL t = JNull.
Proof.
  intros H. unfold JournalView.calcPnL.
  destruct (negb (strict_eq_str (status t) "CLOSED") || loose_eq_null (exit_price t))
    eqn:G; [reflexivity |].
  apply calcPnL_guard in G. tauto.
Qed.

(** C3. A trade whose status is not ['CLOSED'], or whose exit price is
    [null] or missing, gets [null], which is no number at all (so not
    zero). *)
Theorem calcPnL_not_applicable (t : TradeRecord) :
  status t <> JStr "CLOSED" \/ exit_price t = JNull \/ exit_price t = JUndefined ->
  calcPnL t = JNull /\ (forall x : float, calcPnL t <> JNum x).
Proof.
  intros H. rewrite (calcPnL_first_return t H).
  split; [reflexivity | discriminate].
Qed.

(** C9. A closed trade with an exit price whose type is neither ['LONG'] nor
    ['SHORT'] gets [null], the value an open trade gets. *)
Theorem calcPnL_unknown_trade_type (t : TradeRecord) :
  status t = JStr "CLOSED" -> exit_price t <> JNull -> exit_price t <> JUndefined ->
  trade_type t <> JStr "LONG" -> trade_type t <> JStr "SHORT" ->
  calcPnL t = JNull
  /\ (forall o : TradeRecord, status o = JStr "OPEN" -> calcPnL t = calcPnL o).
Proof.
  intros Hs Hn Hu Hl Hsh.
  assert (E : calcPnL t = JNull).
  { unfold JournalView.calcPnL.
    rewrite (proj2 (calcPnL_guard t) (conj Hs (conj Hn Hu))).
    apply strict_eq_str_false in Hl, Hsh. rewrite Hl, Hsh. reflexivity. }
  split; [exact E |].
  intros o Ho. rewrite E. symmetry.
  apply calcPnL_first_return. left. rewrite Ho. discriminate.
Qed.

End JournalViewFacts.

(** Why the difference of two numeric prices is met only up to the sign of a
    zero: an exit price of [-0] is re-read as [+0], so against an entry of
    [+0] a LONG trade gets [+0], where [-0 - 0] is [-0]. *)
Example calcPnL_negative_zero :
  JournalView.calcPnL (fun _ => PrimFloat.nan)
    (JournalView.mkTrade (JStr "CLOSED") (JNum (-0)) (JNum 0) (JStr "LONG"))
  = JNum 0
  /\ Prim2SF (-0 - 0)%float = S754_zero true
  /\ Prim2SF 0%float = S754_zero false.
Proof. repeat split. Qed.

(** Prices that arrive as text go through the engine's parser. *)
Example calcPnL_text_prices :
  JournalView.calcPnL (fun s => if String.eqb s "120.50" then 120.5%float else 100%float)
    (JournalView.mkTrade (JStr "CLOSED") (JStr "120.50") (JStr "100") (JStr "SHORT"))
  = JNum (-20.5).
Proof. reflexivity. Qed.

(** The journal's three theorems at concrete trades. *)

Lemma calcPnL_closed_witness :
  JournalView.calcPnL (fun _ => PrimFloat.nan)
    (JournalView.mkTrade (JStr "CLOSED") (JNum 120) (JNum 100) (JStr "LONG"))
  = JNum 20
  /\ JournalView.calcPnL (fun _ => PrimFloat.nan)
       (JournalView.mkTrade (JStr "CLOSED") (JNum 120) (JNum 100) (JStr "SHORT"))
     = JNum (-20).
Proof.
  split.
  - destruct (proj1 (calcPnL_closed (fun _ => PrimFloat.nan))
                (JournalView.mkTrade (JStr "CLOSED") (JNum 120) (JNum 100) (JStr "LONG")))
      as [HL _]; [reflexivity | discriminate | discriminate |].
    exact (HL eq_refl).
  - destruct (proj1 (calcPnL_closed (fun _ => PrimFloat.nan))
                (JournalView.mkTrade (JStr "CLOSED") (JNum 120) (JNum 100) (JStr "SHORT")))
      as [_ [HS _]]; [reflexivity | discriminate | discriminate |].
    exact (HS eq_refl).
Defined.

Lemma calcPnL_not_applicable_witness :
  JournalView.calcPnL (fun _ => PrimFloat.nan)
    (JournalView.mkTrade (JStr "OPEN") JNull (JNum 100) (JStr "LONG")) = JNull
  /\ JournalView.calcPnL (fun _ => PrimFloat.nan)
       (JournalView.mkTrade (JStr "CLOSED") JUndefined (JNum 100) (JStr "SHORT")) = JNull.
Proof.
  split.
  - apply (calcPnL_not_applicable (fun _ => PrimFloat.nan)
             (JournalView.mkTrade (JStr "OPEN") JNull (JNum 100) (JStr "LONG"))).
    left. simpl. discriminate.
  - apply (calcPnL_not_applicable (fun _ => PrimFloat.nan)
             (JournalView.mkTrade (JStr "CLOSED") JUndefined (JNum 100) (JStr "SHORT"))).
    right. right. reflexivity.
Defined.

Lemma calcPnL_unknown_trade_type_witness :
  JournalView.calcPnL (fun _ => PrimFloat.nan)
    (JournalView.mkTrade (JStr "CLOSED") (JNum 120) (JNum 100) (JStr "long")) = JNull.
Proof.
  apply (calcPnL_unknown_trade_type (fun _ => PrimFloat.nan)
           (JournalView.mkTrade (JStr "CLOSED") (JNum 120) (JNum 100) (JStr "long")));
    simpl; [reflexivity | discriminate ..].
Defined.

(** ** TickerManager *)

Section TickerManagerFacts.

Import TickerManager.

Variable trim : string -> string.
Variable toUpperCase : string -> string.

Local Abbreviation symbol_of := (TickerManager.symbol_of trim toUpperCase).
Local Abbreviation addTicker := (TickerManager.addTicker trim toUpperCase).
Local Abbreviation step := (TickerManager.step trim toUpperCase).
Local Abbreviation run := (TickerManager.run trim toUpperCase).

Lemma includes_true (l : list string) (sym : string) :
  includes l sym = true <-> sym ∈ l.
Proof. unfold includes. apply bool_decide_eq_true. Qed.

Lemma includes_false (l : list string) (sym : string) :
  includes l sym = false <-> sym ∉ l.
Proof. unfold includes. apply bool_decide_eq_false. Qed.

(** The symbol is the field's text, trimmed, then upper-cased. *)
Lemma symbol_of_eq (text : string) : symbol_of text = toUpperCase (trim text).
Proof.
  unfold TickerManager.symbol_of.
  destruct (String.eqb_spec text "") as [-> | _]; reflexivity.
Qed.

Lemma addTicker_empty (st : state) :
  symbol_of (input st) = "" -> addTicker st = st.
Proof. unfold TickerManager.addTicker. intros ->. reflexivity. Qed.

Lemma addTicker_tickers (st : state) :
  symbol_of (input st) <> "" ->
  tickers (addTicker st)
  = if includes (tickers st) (symbol_of (input st)) then tickers st
    else (tickers st ++ [symbol_of (input st)])%list.
Proof.
  intros H. unfold TickerManager.addTicker.
  apply String.eqb_neq in H. rewrite H. reflexivity.
Qed.

Lemma addTicker_NoDup (st : state) :
  NoDup (tickers st) -> NoDup (tickers (addTicker st)).
Proof.
  intros ND.
  destruct (String.eqb_spec (symbol_of (input st)) "") as [E | E].
  - rewrite addTicker_empty by exact E. exact ND.
  - rewrite addTicker_tickers by exact E.
    destruct (includes (tickers st) (symbol_of (input st))) eqn:I; [exact ND |].
    apply includes_false in I.
    apply NoDup_app. split; [exact ND | split].
    + intros x Hx Hin. apply list_elem_of_singleton in Hin. congruence.
    + apply NoDup_singleton.
Qed.

Lemma removeTicker_NoDup (sym : string) (st : state) :
  NoDup (tickers st) -> NoDup (tickers (removeTicker sym st)).
Proof. intros ND. simpl. now apply NoDup_filter. Qed.

Lemma step_NoDup (st : state) (a : action) :
  NoDup (tickers st) -> NoDup (tickers (step st a)).
Proof.
  destruct a; simpl; [easy | apply addTicker_NoDup | apply removeTicker_NoDup].
Qed.

Lemma run_NoDup (acts : list action) (st : state) :
  NoDup (tickers st) -> NoDup (tickers (run acts st)).
Proof.
  revert st. induction acts as [| a acts IH]; intros st ND; simpl; [exact ND |].
  apply IH, step_NoDup, ND.
Qed.

End TickerManagerFacts.

(** The editor run on ASCII text: [" aapl "] is added as ["AAPL"], adding it
    again changes nothing, blank input is ignored. *)
Example watchlist_session :
  TickerManager.tickers
    (TickerManager.run TickerManager.ascii_trim TickerManager.ascii_toUpperCase
       [TickerManager.SetInput " aapl "; TickerManager.AddTicker;
        TickerManager.SetInput "AAPL"; TickerManager.AddTicker;
        TickerManager.SetInput "   "; TickerManager.AddTicker;
        TickerManager.SetInput "reliance.ns"; TickerManager.AddTicker;
        TickerManager.SetInput "msft"; TickerManager.AddTicker;
        TickerManager.RemoveTicker "AAPL"]
       TickerManager.initial)
  = ["RELIANCE.NS"; "MSFT"].
Proof. reflexivity. Qed.

(** ** TickerManager: renders and pending updates *)

Section RendersFacts.

Import TickerManager.

Variable trim : string -> string.
Variable toUpperCase : string -> string.

Local Abbreviation symbol_of := (TickerManager.symbol_of trim toUpperCase).
Local Abbreviation addTicker := (Renders.addTicker trim toUpperCase).
Local Abbreviation step := (Renders.step trim toUpperCase).
Local Abbreviation run_render := (Renders.run_render trim toUpperCase).
Local Abbreviation run_session := (Renders.run_session trim toUpperCase).

(** Fired from the render that shows the pending state, the handler is the
    one of [TickerManager]. *)
Lemma addTicker_rendered (st : state) :
  addTicker st st = TickerManager.addTicker trim toUpperCase st.
Proof. reflexivity. Qed.

Lemma step_rendered (st : state) (a : action) :
  step st st (Renders.Fired a) = TickerManager.step trim toUpperCase st a.
Proof. destruct a; reflexivity. Qed.

(** One handler per render and nothing loaded: the session of
    [TickerManager.run]. *)
Lemma run_is_session (acts : list action) (st : state) :
  TickerManager.run trim toUpperCase acts st
  = run_session (map (λ a, [Renders.Fired a]) acts) st.
Proof.
  revert st. induction acts as [| a acts IH]; intros st; [reflexivity |].
  change (TickerManager.run trim toUpperCase (a :: acts) st)
    with (TickerManager.run trim toUpperCase acts
            (TickerManager.step trim toUpperCase st a)).
  change (run_session (map (λ a, [Renders.Fired a]) (a :: acts)) st)
    with (run_session (map (λ a, [Renders.Fired a]) acts)
            (step st st (Renders.Fired a))).
  rewrite step_rendered. apply IH.
Qed.

Lemma addTicker_empty_symbol (rendered pending : state) :
  symbol_of (input rendered) = "" -> addTicker rendered pending = pending.
Proof. unfold Renders.addTicker. intros ->. reflexivity. Qed.

Lemma addTicker_pending (rendered pending : state) :
  symbol_of (input rendered) <> "" ->
  addTicker rendered pending
  = {| tickers := if includes (tickers rendered) (symbol_of (input rendered))
                  then tickers pending
                  else (tickers pending ++ [symbol_of (input rendered)])%list;
       input := "" |}.
Proof.
  intros H. unfold Renders.addTicker. apply String.eqb_neq in H. now rewrite H.
Qed.

(** While the pending list holds nothing the rendered list lacks, an
    [addTicker] keeps it free of duplicates. *)
Lemma addTicker_pending_NoDup (rendered pending : state) :
  NoDup (tickers pending) ->
  (forall t, t ∈ tickers pending -> t ∈ tickers rendered) ->
  NoDup (tickers (addTicker rendered pending)).
Proof.
  intros ND Hsub.
  destruct (String.eqb_spec (symbol_of (input rendered)) "") as [E | E].
  - now rewrite addTicker_empty_symbol.
  - rewrite addTicker_pending by exact E. simpl.
    destruct (includes (tickers rendered) (symbol_of (input rendered))) eqn:I;
      [exact ND |].
    apply includes_false in I. apply NoDup_app. split; [exact ND | split].
    + intros x Hx Hin. apply list_elem_of_singleton in Hin. subst x.
      apply I, Hsub, Hx.
    + apply NoDup_singleton.
Qed.

(** The events of one render, from any pending state. *)
Lemma render_NoDup (rendered : state) (evs : list Renders.event) :
  forall (pending : state) (changed : bool),
    NoDup (tickers pending) ->
    (changed = false -> forall t, t ∈ tickers pending -> t ∈ tickers rendered) ->
    Renders.adds_see_the_list changed evs = true ->
    Forall Renders.loads_no_duplicate evs ->
    NoDup (tickers (fold_left (step rendered) evs pending)).
Proof.
  induction evs as [| ev evs IH]; intros pending changed ND Hsub Hadds Hloads;
    [exact ND |].
  apply Forall_cons in Hloads as [Hload Hloads].
  destruct ev as [[text | | sym] | list]; simpl in *.
  - apply (IH _ changed); assumption.
  - apply andb_true_iff in Hadds as [Hc Hadds]. apply negb_true_iff in Hc.
    apply (IH _ true); [| discriminate | assumption ..].
    apply addTicker_pending_NoDup; [exact ND | now apply Hsub].
  - apply (IH _ changed); [now apply NoDup_filter | | assumption ..].
    intros Hc t Ht. apply list_elem_of_filter in Ht as [_ Ht]. now apply Hsub.
  - apply (IH _ true); [exact Hload | discriminate | assumption ..].
Qed.

Lemma session_NoDup (renders : list (list Renders.event)) :
  forall st : state,
    NoDup (tickers st) -> Renders.well_rendered renders ->
    NoDup (tickers (run_session renders st)).
Proof.
  induction renders as [| evs renders IH]; intros st ND Hwell; [exact ND |].
  apply Forall_cons in Hwell as [[Hadds Hloads] Hwell]. simpl.
  apply IH; [| exact Hwell].
  apply (render_NoDup st evs st false); tauto.
Qed.

(** One handler per render, nothing loaded: such a session is well
    rendered. *)
Lemma one_handler_per_render (acts : list action) :
  Renders.well_rendered (map (λ a, [Renders.Fired a]) acts).
Proof.
  induction acts as [| a acts IH]; [apply Forall_nil_2 |].
  apply Forall_cons. split; [| exact IH].
  split; [destruct a; reflexivity |].
  apply Forall_cons. split; [exact I | apply Forall_nil_2].
Qed.


End RendersFacts.




(** ** App: the dashboard batch *)

Section DashboardFacts.

Import Dashboard.

Lemma summarize_fulfilled (net : nat -> string -> axios_result) (i : nat) (t : string) :
  summarize net i t = Fulfilled (t, entry_of (net i t)).
Proof.
  unfold summarize, entry_of.
  destruct (net i t) as [data | e]; [| reflexivity].
  destruct (get_prop data "final_signal"); reflexivity.
Qed.

Lemma promise_all_fulfilled {A : Type} (vs : list A) :
  promise_all (map Fulfilled vs) = Fulfilled vs.
Proof.
  induction vs as [| v vs IH]; simpl; [reflexivity |]. now rewrite IH.
Qed.

(** No callback rejects, so [Promise.all] does not either. *)
Lemma fetchDashboardSummaries_eq (net : nat -> string -> axios_result)
    (TICKERS : list string) :
  fetchDashboardSummaries net TICKERS = Fulfilled (summaries net TICKERS).
Proof.
  unfold fetchDashboardSummaries, summaries.
  replace (imap (summarize net) TICKERS)
    with (map Fulfilled (imap (λ i t, (t, entry_of (net i t))) TICKERS)).
  - now rewrite promise_all_fulfilled.
  - change (map Fulfilled) with (fmap (M := list) (@Fulfilled (string * jsval))).
    rewrite fmap_imap. apply imap_ext. intros i t _. simpl.
    symmetry. apply summarize_fulfilled.
Qed.

Lemma summaries_nil (net : nat -> string -> axios_result) : summaries net [] = ∅.
Proof. reflexivity. Qed.

(** The last request of the batch writes its entry over what the earlier
    ones built. *)
Lemma summaries_snoc (net : nat -> string -> axios_result) (l : list string) (t : string) :
  summaries net (l ++ [t]) = <[t := entry_of (net (length l) t)]> (summaries net l).
Proof.
  unfold summaries, fromEntries. rewrite imap_app, fold_left_app. simpl.
  now rewrite Nat.add_0_r.
Qed.

Lemma summaries_is_Some (net : nat -> string -> axios_result) (TICKERS : list string)
    (t : string) :
  is_Some (summaries net TICKERS !! t) <-> t ∈ TICKERS.
Proof.
  induction TICKERS as [| x l IH] using rev_ind.
  - rewrite summaries_nil, lookup_empty. split; [intros [? ?]; discriminate |].
    intros H. now apply not_elem_of_nil in H.
  - rewrite summaries_snoc, elem_of_app, list_elem_of_singleton.
    destruct (decide (x = t)) as [-> | Hne].
    + rewrite lookup_insert_eq. split; [intros _; now right | intros _; eauto].
    + rewrite lookup_insert_ne by exact Hne. rewrite IH. split; [tauto |].
      intros [H | H]; [exact H | congruence].
Qed.

(** The entry of a ticker is the one of the last request made for it. *)
Lemma summaries_last (net : nat -> string -> axios_result) (TICKERS : list string)
    (i : nat) (t : string) :
  TICKERS !! i = Some t -> t ∉ drop (S i) TICKERS ->
  summaries net TICKERS !! t = Some (entry_of (net i t)).
Proof.
  revert i. induction TICKERS as [| x l IH] using rev_ind; intros i Hi Hlast.
  - discriminate.
  - rewrite summaries_snoc.
    destruct (decide (i < length l)) as [Hlt | Hge].
    + rewrite lookup_app_l in Hi by exact Hlt.
      rewrite drop_app_le in Hlast by lia.
      apply not_elem_of_app in Hlast as [Hl Hx].
      rewrite list_elem_of_singleton in Hx.
      rewrite lookup_insert_ne by congruence. now apply IH.
    + assert (i = length l) as ->.
      { apply lookup_lt_Some in Hi. rewrite length_app in Hi. simpl in Hi. lia. }
      rewrite lookup_app_r, Nat.sub_diag in Hi by lia. simpl in Hi.
      injection Hi as ->. apply lookup_insert_eq.
Qed.

(** The entry of a ticker depends on the requests made for that ticker and
    on nothing else. *)
Lemma summaries_independent (net net' : nat -> string -> axios_result)
    (TICKERS : list string) (t : string) :
  (forall i, TICKERS !! i = Some t -> net' i t = net i t) ->
  summaries net' TICKERS !! t = summaries net TICKERS !! t.
Proof.
  induction TICKERS as [| x l IH] using rev_ind; intros Hsame; [reflexivity |].
  rewrite !summaries_snoc.
  destruct (decide (x = t)) as [-> | Hne].
  - rewrite !lookup_insert_eq. f_equal. f_equal. apply Hsame.
    rewrite lookup_app_r, Nat.sub_diag by lia. reflexivity.
  - rewrite !lookup_insert_ne by exact Hne. apply IH.
    intros i Hi. apply Hsame. rewrite lookup_app_l; [exact Hi |].
    now apply lookup_lt_Some in Hi.
Qed.

End DashboardFacts.

Section DashboardBatch.

Import Dashboard.

(** C4, as the code has it. For every list of tickers and however the
    requests settle, [fetchDashboardSummaries] does not throw; the map it
    builds has an entry for each requested ticker and for nothing else; the
    entry of a ticker, decided by the last request made for it, is
    [{ final_signal: v }] with [v] the [final_signal] of the response body when
    the request succeeds and the body can be read, and
    [{ final_signal: 'N/A' }] when the request fails or the body cannot be
    read; and it is the same in any other batch over these tickers in which
    the requests for that ticker settle the same way. *)
Theorem fetchDashboardSummaries_batch
    (net : nat -> string -> axios_result) (TICKERS : list string) :
  exists m : gmap string jsval,
    fetchDashboardSummaries net TICKERS = Fulfilled m
    /\ (forall t, is_Some (m !! t) <-> t ∈ TICKERS)
    /\ (forall i t, TICKERS !! i = Some t -> t ∉ drop (S i) TICKERS ->
          (forall fields, net i t = Resolved (JObj fields) ->
             m !! t = Some (summary (assoc "final_signal" fields)))
          /\ (forall data v, net i t = Resolved data ->
                get_prop data "final_signal" = Some v -> m !! t = Some (summary v))
          /\ (forall data, net i t = Resolved data ->
                get_prop data "final_signal" = None ->
                m !! t = Some (summary (JStr "N/A")))
          /\ (forall err, net i t = Rejected err ->
                m !! t = Some (summary (JStr "N/A"))))
    /\ (forall net' t,
          (forall i, TICKERS !! i = Some t -> net' i t = net i t) ->
          exists m', fetchDashboardSummaries net' TICKERS = Fulfilled m'
                     /\ m' !! t = m !! t).
Proof.
  exists (summaries net TICKERS).
  split; [apply fetchDashboardSummaries_eq | split; [| split]].
  - intros t. apply summaries_is_Some.
  - intros i t Hi Hlast.
    pose proof (summaries_last net TICKERS i t Hi Hlast) as L.
    repeat split.
    + intros fields E. rewrite L, E. reflexivity.
    + intros data v E G. rewrite L, E. simpl. now rewrite G.
    + intros data E G. rewrite L, E. simpl. now rewrite G.
    + intros err E. rewrite L, E. reflexivity.
  - intros net' t Hsame. exists (summaries net' TICKERS).
    split; [apply fetchDashboardSummaries_eq | now apply summaries_independent].
Qed.

End DashboardBatch.

(** The batch over A and B: B's failure leaves the ['N/A'] entry for B and
    A's entry as it is. *)
Lemma fetchDashboardSummaries_batch_witness :
  exists m : gmap string jsval,
    Dashboard.fetchDashboardSummaries Dashboard.sample_net ["A"; "B"] = Fulfilled m
    /\ m !! "A" = Some (Dashboard.summary (JStr "BUY"))
    /\ m !! "B" = Some (Dashboard.summary (JStr "N/A")).
Proof.
  destruct (fetchDashboardSummaries_batch Dashboard.sample_net ["A"; "B"])
    as (m & Hm & _ & Hentry & _).
  exists m. split; [exact Hm | split].
  - destruct (Hentry 0%nat "A") as (_ & HA & _).
    + reflexivity.
    + simpl. intros H. apply list_elem_of_singleton in H. discriminate.
    + apply (HA Dashboard.sample_analysis); reflexivity.
  - destruct (Hentry 1%nat "B") as (_ & _ & _ & HB).
    + reflexivity.
    + simpl. apply not_elem_of_nil.
    + apply (HB ErrRequest). reflexivity.
Defined.

(** A ticker listed twice is requested twice and keeps the later entry. *)
Example fetchDashboardSummaries_repeated_ticker :
  Dashboard.fetchDashboardSummaries
    (fun i _ => match i with
                | O => Resolved Dashboard.sample_analysis
                | _ => Rejected ErrRequest
                end)
    ["A"; "A"]
  = Fulfilled {[ "A" := Dashboard.summary (JStr "N/A") ]}.
Proof. reflexivity. Qed.

(** The entry of a ticker whose analysis succeeds is not the analysis result
    the back end sent: only its [final_signal] is kept. *)
Lemma fetchDashboardSummaries_entry_is_not_the_result :
  exists m : gmap string jsval,
    Dashboard.fetchDashboardSummaries (fun _ _ => Resolved Dashboard.sample_analysis) ["A"]
    = Fulfilled m
    /\ m !! "A" = Some (JObj [("final_signal", JStr "BUY")])
    /\ m !! "A" <> Some Dashboard.sample_analysis.
Proof.
  exists (Dashboard.summaries (fun _ _ => Resolved Dashboard.sample_analysis) ["A"]).
  split; [apply fetchDashboardSummaries_eq |].
  assert (L : Dashboard.summaries (fun _ _ => Resolved Dashboard.sample_analysis) ["A"] !! "A"
              = Some (JObj [("final_signal", JStr "BUY")])).
  { apply (summaries_last (fun _ _ => Resolved Dashboard.sample_analysis) ["A"] 0%nat "A").
    - reflexivity.
    - simpl. apply not_elem_of_nil. }
  split; [exact L |]. rewrite L. discriminate.
Qed.

(** ** The position-size forms *)

Section SingleFileAppFacts.

Import SingleFileApp.

Variable trim : string -> string.
Variable parseFloat_str : string -> float.
Variable api : request -> axios_result.

Local Abbreviation handleCalculatePositionSize :=
  (SingleFileApp.handleCalculatePositionSize trim parseFloat_str api).
Local Abbreviation passes_validation :=
  (SingleFileApp.passes_validation trim parseFloat_str).
Local Abbreviation request_of := (SingleFileApp.request_of parseFloat_str).

(** Walk through the three early returns of the handler: [tac] closes the
    goal of each of them, and the goal of the request is left. *)
Ltac through_validation f tac :=
  unfold SingleFileApp.handleCalculatePositionSize, SingleFileApp.passes_validation;
  destruct (String.eqb (trim (accountSize f)) "" || String.eqb (trim (entryPrice f)) ""
            || String.eqb (trim (stopLossPrice f)) ""); [tac |];
  destruct (PrimFloat.is_nan (parseFloat_str (accountSize f))
            || PrimFloat.is_nan (parseFloat_str (entryPrice f))
            || PrimFloat.is_nan (parseFloat_str (stopLossPrice f))); [tac |];
  destruct (PrimFloat.leb (parseFloat_str (accountSize f)) 0
            || PrimFloat.leb (parseFloat_str (entryPrice f)) 0
            || PrimFloat.leb (parseFloat_str (stopLossPrice f)) 0); [tac |];
  cbn [negb andb]; fold (request_of f).

(** A request goes out exactly when the three checks pass. *)
Lemma handle_issued (f : form) :
  issued (handleCalculatePositionSize f)
  = if passes_validation f then Some (request_of f) else None.
Proof.
  through_validation f ltac:(reflexivity).
  destruct (api (request_of f)) as [data | [data | |]]; try reflexivity.
  destruct (get_prop data "error"); reflexivity.
Qed.

(** When the server rejects the request, the form ends with no result. *)
Lemma handle_rejected (f : form) (err : axios_error) :
  passes_validation f = true -> api (request_of f) = Rejected err ->
  positionSizeResult (after (handleCalculatePositionSize f)) = JNull.
Proof.
  through_validation f ltac:(discriminate).
  intros _ ->.
  destruct err as [data | |]; try reflexivity.
  destruct (get_prop data "error"); reflexivity.
Qed.

End SingleFileAppFacts.

Section RiskCalculatorFacts.

Import RiskCalculator.

Variable Number_str : string -> float.
Variable api : request -> axios_result.

Local Abbreviation calculate := (RiskCalculator.calculate Number_str api).
Local Abbreviation isInvalid := (RiskCalculator.isInvalid Number_str).
Local Abbreviation calculator_request := (RiskCalculator.calculator_request Number_str).

Lemma calculate_issued (f : form) :
  issued (calculate f)
  = if isInvalid (accountSize f) || isInvalid (entryPrice f) || isInvalid (stopLossPrice f)
    then None else Some (calculator_request f).
Proof.
  unfold RiskCalculator.calculate.
  destruct (isInvalid (accountSize f) || isInvalid (entryPrice f)
            || isInvalid (stopLossPrice f)); [reflexivity |].
  fold (calculator_request f).
  destruct (api (calculator_request f)); reflexivity.
Qed.

End RiskCalculatorFacts.

(** ** The analysis core *)

Section ConsensusFacts.

Import Backend.

Lemma votes_cons (s : Signal) (r : IndicatorResult) (rs : list IndicatorResult) :
  votes s (r :: rs) = ((if is_signal s r then 1 else 0) + votes s rs)%nat.
Proof.
  unfold votes. rewrite filter_cons.
  destruct (decide (is_signal s r = true)) as [E | E].
  - rewrite E. reflexivity.
  - apply not_true_is_false in E. rewrite E. reflexivity.
Qed.

(** Every indicator casts exactly one vote. *)
Lemma votes_total (rs : list IndicatorResult) :
  (votes BUY rs + votes SELL rs + votes HOLD rs = length rs)%nat.
Proof.
  induction rs as [| r rs IH]; [reflexivity |].
  rewrite !votes_cons. simpl length.
  unfold is_signal. destruct (signal r); simpl; lia.
Qed.

Lemma get_final_signal_votes (rs : list IndicatorResult) :
  vote_counts (get_final_signal rs)
  = {| buy_votes := votes BUY rs; sell_votes := votes SELL rs;
       hold_votes := votes HOLD rs |}.
Proof. reflexivity. Qed.

Lemma get_final_signal_decision (rs : list IndicatorResult) :
  final_signal (get_final_signal rs)
  = if ((2 <=? votes BUY rs)%nat && (votes SELL rs <? votes BUY rs)%nat)%bool then BUY
    else if ((2 <=? votes SELL rs)%nat && (votes BUY rs <? votes SELL rs)%nat)%bool
    then SELL else HOLD.
Proof. reflexivity. Qed.

Lemma final_signal_cases (rs : list IndicatorResult) :
  let b := votes BUY rs in
  let s := votes SELL rs in
  ((2 <= b)%nat /\ (s < b)%nat /\ final_signal (get_final_signal rs) = BUY)
  \/ ((2 <= s)%nat /\ (b < s)%nat /\ final_signal (get_final_signal rs) = SELL)
  \/ (~ ((2 <= b)%nat /\ (s < b)%nat) /\ ~ ((2 <= s)%nat /\ (b < s)%nat)
      /\ final_signal (get_final_signal rs) = HOLD).
Proof.
  intros b s. rewrite get_final_signal_decision. fold b s.
  destruct (Nat.leb_spec 2 b) as [B2 | B2], (Nat.ltb_spec s b) as [SB | SB];
    cbn [andb];
    try (left; split; [lia | split; [lia | reflexivity]]);
    destruct (Nat.leb_spec 2 s) as [S2 | S2], (Nat.ltb_spec b s) as [BS | BS];
    cbn [andb];
    try (right; left; split; [lia | split; [lia | reflexivity]]);
    right; right; (split; [lia | split; [lia | reflexivity]]).
Qed.

(** C2. On four indicator results the consensus is BUY exactly when BUY has
    at least two votes and more votes than SELL, SELL exactly when SELL has at
    least two votes and more votes than BUY, and HOLD in every other case:
    on equal BUY and SELL counts (two against two in particular) and when
    neither BUY nor SELL reaches two votes. *)
Theorem get_final_signal_rule (rs : list IndicatorResult) :
  length rs = 4%nat ->
  let c := get_final_signal rs in
  let b := buy_votes (vote_counts c) in
  let s := sell_votes (vote_counts c) in
  let h := hold_votes (vote_counts c) in
  (b = votes BUY rs /\ s = votes SELL rs /\ h = votes HOLD rs /\ (b + s + h = 4)%nat)
  /\ (final_signal c = BUY <-> (2 <= b)%nat /\ (s < b)%nat)
  /\ (final_signal c = SELL <-> (2 <= s)%nat /\ (b < s)%nat)
  /\ (final_signal c = HOLD <->
      ~ ((2 <= b)%nat /\ (s < b)%nat) /\ ~ ((2 <= s)%nat /\ (b < s)%nat))
  /\ (b = s -> final_signal c = HOLD)
  /\ (b = 2%nat -> s = 2%nat -> final_signal c = HOLD)
  /\ ((b < 2)%nat -> (s < 2)%nat -> final_signal c = HOLD).
Proof.
  intros Hlen c b s h. subst c b s h. rewrite get_final_signal_votes. simpl.
  pose proof (votes_total rs) as T. rewrite Hlen in T.
  pose proof (final_signal_cases rs) as C. simpl in C.
  split; [repeat split; exact T |].
  destruct C as [(B1 & B2 & ->) | [(S1 & S2 & ->) | (NB & NS & ->)]].
  - repeat split; intros; first [assumption | discriminate | lia | tauto].
  - repeat split; intros; first [assumption | discriminate | lia | tauto].
  - repeat split; intros; first [reflexivity | discriminate | lia | tauto].
Qed.

End ConsensusFacts.

(** Two BUY against two SELL is HOLD; the specification's end-to-end scenario
    (BUY, SELL, HOLD, SELL) is SELL. *)
Lemma get_final_signal_rule_witness :
  Backend.final_signal
    (Backend.get_final_signal
       [Backend.mkIndicator "heiken_ashi" Backend.BUY 1 "";
        Backend.mkIndicator "bollinger_bands" Backend.SELL (-1) "";
        Backend.mkIndicator "macd" Backend.BUY 1 "";
        Backend.mkIndicator "rsi" Backend.SELL (-1) ""]) = Backend.HOLD
  /\ Backend.final_signal
       (Backend.get_final_signal
          [Backend.mkIndicator "heiken_ashi" Backend.BUY 1 "";
           Backend.mkIndicator "bollinger_bands" Backend.SELL (-1) "";
           Backend.mkIndicator "macd" Backend.HOLD 0 "";
           Backend.mkIndicator "rsi" Backend.SELL (-1) ""]) = Backend.SELL.
Proof.
  split.
  - destruct (get_final_signal_rule
                [Backend.mkIndicator "heiken_ashi" Backend.BUY 1 "";
                 Backend.mkIndicator "bollinger_bands" Backend.SELL (-1) "";
                 Backend.mkIndicator "macd" Backend.BUY 1 "";
                 Backend.mkIndicator "rsi" Backend.SELL (-1) ""] eq_refl)
      as (_ & _ & _ & _ & _ & Htie & _).
    apply Htie; reflexivity.
  - destruct (get_final_signal_rule
                [Backend.mkIndicator "heiken_ashi" Backend.BUY 1 "";
                 Backend.mkIndicator "bollinger_bands" Backend.SELL (-1) "";
                 Backend.mkIndicator "macd" Backend.HOLD 0 "";
                 Backend.mkIndicator "rsi" Backend.SELL (-1) ""] eq_refl)
      as (_ & _ & Hsell & _).
    apply Hsell. vm_compute. split; lia.
Defined.

Section PositionSizeFacts.

Import Backend.

Local Open Scope Q_scope.

Lemma positive_true (x : Q) : positive x = true <-> 0 < x.
Proof.
  unfold positive. rewrite negb_true_iff. split.
  - intros H. apply Qnot_le_lt. intros L. apply Qle_bool_iff in L. congruence.
  - intros H. destruct (Qle_bool x 0) eqn:E; [| reflexivity].
    apply Qle_bool_iff in E. exfalso. now apply (Qlt_not_le 0 x).
Qed.

Lemma inputs_positive (a rp e s : Q) :
  0 < a -> 0 < rp -> 0 < e -> 0 < s ->
  negb (positive a && positive rp && positive e && positive s) = false.
Proof.
  intros Ha Hrp He Hs.
  rewrite (proj2 (positive_true a) Ha), (proj2 (positive_true rp) Hrp),
    (proj2 (positive_true e) He), (proj2 (positive_true s) Hs).
  reflexivity.
Qed.

(** Different prices are a positive distance apart. *)
Lemma risk_per_share_positive (e s : Q) : ~ e == s -> 0 < Qabs (e - s).
Proof.
  intros Hne.
  destruct (Q_dec e s) as [[Hlt | Hgt] | Heq]; [| | contradiction];
    apply Qabs_case; intros H; lra.
Qed.

(** The floor of a quotient by a positive divisor brackets the dividend. *)
Lemma floor_quotient_bounds (x y : Q) :
  0 < y ->
  inject_Z (Qfloor (x / y)) * y <= x /\ x < inject_Z (Qfloor (x / y) + 1) * y.
Proof.
  intros Hy.
  assert (Hy0 : ~ y == 0) by (intros E; rewrite E in Hy; now apply (Qlt_irrefl 0)).
  assert (E : x / y * y == x) by (field; exact Hy0).
  split.
  - rewrite <- E at 2. apply Qmult_le_compat_r; [apply Qfloor_le | now apply Qlt_le_weak].
  - rewrite <- E at 1. apply Qmult_lt_compat_r; [exact Hy | apply Qlt_floor].
Qed.

Lemma calculate_position_size_ok (a rp e s : Q) :
  0 < a -> 0 < rp -> 0 < e -> 0 < s -> ~ e == s ->
  calculate_position_size a rp e s
  = inr {| risk_amount := a * rp / 100;
           risk_per_share := Qabs (e - s);
           max_shares := Qfloor (a * rp / 100 / Qabs (e - s));
           total_investment := inject_Z (Qfloor (a * rp / 100 / Qabs (e - s))) * e |}.
Proof.
  intros Ha Hrp He Hs Hne. unfold calculate_position_size.
  rewrite inputs_positive by assumption.
  destruct (Qeq_bool e s) eqn:E; [| reflexivity].
  apply Qeq_bool_iff in E. contradiction.
Qed.

Lemma calculate_position_size_equal (a rp e s : Q) :
  0 < a -> 0 < rp -> 0 < e -> 0 < s -> e == s ->
  calculate_position_size a rp e s = inl InvalidRiskParametersError.
Proof.
  intros Ha Hrp He Hs Heq. unfold calculate_position_size.
  rewrite inputs_positive by assumption.
  apply Qeq_bool_iff in Heq. rewrite Heq. reflexivity.
Qed.

(** C5. With every input positive and the entry price different from the
    stop, the calculator returns a plan whose risk amount is
    [account_size * risk_percent / 100], whose risk per share is
    [|entry_price - stop_loss_price|], whose share count is the floor of their
    quotient, so that [max_shares * risk_per_share <= risk_amount <
    (max_shares + 1) * risk_per_share], and whose total investment is
    [max_shares * entry_price]. *)
Theorem calculate_position_size_plan (account_size risk_percent entry_price stop_loss_price : Q) :
  0 < account_size -> 0 < risk_percent -> 0 < entry_price -> 0 < stop_loss_price ->
  ~ entry_price == stop_loss_price ->
  exists plan : PositionSizePlan,
    calculate_position_size account_size risk_percent entry_price stop_loss_price = inr plan
    /\ risk_amount plan = account_size * risk_percent / 100
    /\ risk_per_share plan = Qabs (entry_price - stop_loss_price)
    /\ max_shares plan = Qfloor (risk_amount plan / risk_per_share plan)
    /\ inject_Z (max_shares plan) * risk_per_share plan <= risk_amount plan
    /\ risk_amount plan < inject_Z (max_shares plan + 1) * risk_per_share plan
    /\ total_investment plan = inject_Z (max_shares plan) * entry_price.
Proof.
  intros Ha Hrp He Hs Hne. eexists. split.
  - now apply calculate_position_size_ok.
  - cbn [risk_amount risk_per_share max_shares total_investment].
    pose proof (floor_quotient_bounds (account_size * risk_percent / 100)
                  (Qabs (entry_price - stop_loss_price))
                  (risk_per_share_positive _ _ Hne)) as [Lo Hi].
    repeat split; assumption.
Qed.

End PositionSizeFacts.

(** An account of 100000 risking 1% between 100 and 95: 1000 at risk, 5 per
    share, 200 shares. *)
Lemma calculate_position_size_plan_witness :
  exists plan : Backend.PositionSizePlan,
    Backend.calculate_position_size 100000 1 100 95 = inr plan
    /\ (Backend.risk_amount plan == 1000)%Q
    /\ (Backend.risk_per_share plan == 5)%Q
    /\ Backend.max_shares plan = 200%Z
    /\ (Backend.total_investment plan == 20000)%Q.
Proof.
  destruct (calculate_position_size_plan 100000 1 100 95)
    as (plan & Hplan & Hra & Hrps & Hms & _ & _ & Hti);
    [reflexivity | reflexivity | reflexivity | reflexivity | discriminate |].
  exists plan. split; [exact Hplan |].
  rewrite Hti, Hms, Hra, Hrps. repeat split.
Defined.

Section EqualPrices.

Import Backend.

(** C6. With every input positive and the entry price equal to the stop, the
    calculator fails with [InvalidRiskParametersError], an error of the
    validation kind, and returns no plan.  The form of the single-file front
    end does not stop such a request itself: it sends every request that
    passes its three checks, and when the server refuses one it is left with
    no result. *)
Theorem calculate_position_size_equal_prices :
  (forall account_size risk_percent entry_price stop_loss_price : Q,
     (0 < account_size)%Q -> (0 < risk_percent)%Q ->
     (0 < entry_price)%Q -> (0 < stop_loss_price)%Q ->
     (entry_price == stop_loss_price)%Q ->
     calculate_position_size account_size risk_percent entry_price stop_loss_price
     = inl InvalidRiskParametersError
     /\ kind_of InvalidRiskParametersError = KValidation
     /\ (forall plan : PositionSizePlan,
           calculate_position_size account_size risk_percent entry_price stop_loss_price
           <> inr plan))
  /\ (forall (trim : string -> string) (parseFloat_str : string -> float)
            (api : request -> axios_result) (f : SingleFileApp.form),
        SingleFileApp.passes_validation trim parseFloat_str f = true ->
        issued (SingleFileApp.handleCalculatePositionSize trim parseFloat_str api f)
        = Some (SingleFileApp.request_of parseFloat_str f)
        /\ (forall err : axios_error,
              api (SingleFileApp.request_of parseFloat_str f) = Rejected err ->
              SingleFileApp.positionSizeResult
                (after (SingleFileApp.handleCalculatePositionSize trim parseFloat_str api f))
              = JNull)).
Proof.
  split.
  - intros a rp e s Ha Hrp He Hs Heq.
    rewrite (calculate_position_size_equal a rp e s Ha Hrp He Hs Heq).
    split; [reflexivity | split; [reflexivity | discriminate]].
  - intros trim pfs api f V. split.
    + rewrite handle_issued, V. reflexivity.
    + intros err E. now apply (handle_rejected trim pfs api f err).
Qed.

End EqualPrices.

(** Entry and stop both at 100: the calculator refuses, and the form, which
    let the two equal prices through, shows no plan. *)
Lemma calculate_position_size_equal_prices_witness :
  Backend.calculate_position_size 100000 1 100 100
  = inl Backend.InvalidRiskParametersError
  /\ SingleFileApp.positionSizeResult
       (after
          (SingleFileApp.handleCalculatePositionSize TickerManager.ascii_trim
             sample_number sample_rejecting_api
             (SingleFileApp.mkForm "100000" "100" "100" false JNull JNull)))
     = JNull.
Proof.
  destruct calculate_position_size_equal_prices as [Hcalc Hform]. split.
  - apply (Hcalc 100000%Q 1%Q 100%Q 100%Q); reflexivity.
  - destruct (Hform TickerManager.ascii_trim sample_number sample_rejecting_api
                (SingleFileApp.mkForm "100000" "100" "100" false JNull JNull))
      as [_ Hrej]; [reflexivity |].
    apply (Hrej (ErrResponse
                   (JObj [("error", JStr "Entry price and stop loss cannot be equal")]))).
    reflexivity.
Defined.

Section OnePercent.

Import Backend.

(** C8. Both forms send [risk: 1] in every request they issue, next to the
    three numbers read from their fields; the calculator takes the risk
    percentage as an argument: the risk amount of every plan is
    [account_size * risk_percent / 100], 1000 at 1% and 2000 at 2% of
    100000. *)
Theorem position_size_requests_risk_one_percent :
  (forall (trim : string -> string) (parseFloat_str : string -> float)
          (api : request -> axios_result) (f : SingleFileApp.form) (req : request),
     issued (SingleFileApp.handleCalculatePositionSize trim parseFloat_str api f)
     = Some req ->
     risk req = 1%float /\ req = SingleFileApp.request_of parseFloat_str f)
  /\ (forall (Number_str : string -> float) (api : request -> axios_result)
            (f : RiskCalculator.form) (req : request),
        issued (RiskCalculator.calculate Number_str api f) = Some req ->
        risk req = 1%float /\ req = RiskCalculator.calculator_request Number_str f)
  /\ (forall (account_size risk_percent entry_price stop_loss_price : Q)
            (plan : PositionSizePlan),
        calculate_position_size account_size risk_percent entry_price stop_loss_price
        = inr plan ->
        risk_amount plan = (account_size * risk_percent / 100)%Q)
  /\ (exists plan1 plan2 : PositionSizePlan,
        calculate_position_size 100000 1 100 95 = inr plan1
        /\ calculate_position_size 100000 2 100 95 = inr plan2
        /\ (risk_amount plan1 == 1000)%Q /\ (risk_amount plan2 == 2000)%Q).
Proof.
  split; [| split; [| split]].
  - intros trim pfs api f req. rewrite handle_issued.
    destruct (SingleFileApp.passes_validation trim pfs f); [| discriminate].
    intros [= <-]. split; reflexivity.
  - intros Number_str api f req. rewrite calculate_issued.
    destruct (RiskCalculator.isInvalid Number_str (RiskCalculator.accountSize f)
              || RiskCalculator.isInvalid Number_str (RiskCalculator.entryPrice f)
              || RiskCalculator.isInvalid Number_str (RiskCalculator.stopLossPrice f));
      [discriminate |].
    intros [= <-]. split; reflexivity.
  - intros a rp e s plan. unfold calculate_position_size.
    destruct (negb _); [discriminate |].
    destruct (Qeq_bool e s); [discriminate |].
    intros [= <-]. reflexivity.
  - eexists. eexists. repeat split.
Qed.

End OnePercent.

(** Both forms filled with 100000, 100 and 95 send a request with
    [risk = 1]. *)
Lemma position_size_requests_risk_one_percent_witness :
  issued
    (SingleFileApp.handleCalculatePositionSize TickerManager.ascii_trim sample_number
       sample_rejecting_api (SingleFileApp.mkForm "100000" "100" "95" false JNull JNull))
  = Some (mkRequest 100000 1 100 95)
  /\ issued
       (RiskCalculator.calculate sample_number sample_rejecting_api
          (RiskCalculator.mkForm "100000" "100" "95" false JNull JNull))
     = Some (mkRequest 100000 1 100 95).
Proof.
  destruct position_size_requests_risk_one_percent as (Happ & Hcalc & _).
  split.
  - destruct (Happ TickerManager.ascii_trim sample_number sample_rejecting_api
                (SingleFileApp.mkForm "100000" "100" "95" false JNull JNull)
                (mkRequest 100000 1 100 95) eq_refl) as [_ ->].
    reflexivity.
  - destruct (Hcalc sample_number sample_rejecting_api
                (RiskCalculator.mkForm "100000" "100" "95" false JNull JNull)
                (mkRequest 100000 1 100 95) eq_refl) as [_ ->].
    reflexivity.
Defined.

Section HeikenAshiFacts.

Import Backend.

Local Open Scope Q_scope.

(** The candle at index [i] is one step of the loop, taken from the candle
    at index [i - 1] (from the seed at index 0). *)
Lemma ha_loop_lookup (bars : list Bar) :
  forall (prev : option HeikenAshiBar) (i : nat) (b : Bar),
    bars !! i = Some b ->
    ha_loop prev bars !! i
    = Some (ha_step (match i with
                     | O => prev
                     | S j => ha_loop prev bars !! j
                     end) b).
Proof.
  induction bars as [| b0 rest IH]; intros prev i b Hi; [discriminate |].
  destruct i as [| j]; simpl in *.
  - now injection Hi as ->.
  - rewrite (IH _ j b Hi). destruct j; reflexivity.
Qed.

Lemma ha_loop_length (bars : list Bar) (prev : option HeikenAshiBar) :
  length (ha_loop prev bars) = length bars.
Proof.
  revert prev. induction bars as [| b rest IH]; intros prev; simpl; [reflexivity |].
  now rewrite IH.
Qed.

Lemma max3_upper (a b c : Q) : a <= max3 a b c /\ b <= max3 a b c /\ c <= max3 a b c.
Proof.
  unfold max3. repeat split.
  - apply Q.le_max_l.
  - eapply Qle_trans; [apply Q.le_max_l | apply Q.le_max_r].
  - eapply Qle_trans; [apply Q.le_max_r | apply Q.le_max_r].
Qed.

Lemma min3_lower (a b c : Q) : min3 a b c <= a /\ min3 a b c <= b /\ min3 a b c <= c.
Proof.
  unfold min3. repeat split.
  - apply Q.le_min_l.
  - eapply Qle_trans; [apply Q.le_min_r | apply Q.le_min_l].
  - eapply Qle_trans; [apply Q.le_min_r | apply Q.le_min_r].
Qed.

(** C7. The transform yields one candle per bar, and at every index [i] of
    the series: [ha_close] is the mean of the bar's four prices; [ha_open] is
    the mean of the bar's open and close at index 0 and the mean of the
    previous candle's [ha_open] and [ha_close] after it; [ha_high] is the
    maximum of the bar's high, [ha_open] and [ha_close] (so at least each of
    them), and [ha_low] the minimum of the bar's low, [ha_open] and
    [ha_close]. *)
Theorem heiken_ashi_recurrence (bars : list Bar) (i : nat) (b : Bar) :
  bars !! i = Some b ->
  length (heiken_ashi bars) = length bars
  /\ exists h : HeikenAshiBar,
       heiken_ashi bars !! i = Some h
       /\ ha_close h = (open b + high b + low b + close b) / 4
       /\ (i = 0%nat -> ha_open h = (open b + close b) / 2)
       /\ (forall j : nat, i = S j ->
             exists p : HeikenAshiBar,
               heiken_ashi bars !! j = Some p
               /\ ha_open h = (ha_open p + ha_close p) / 2)
       /\ ha_high h = max3 (high b) (ha_open h) (ha_close h)
       /\ ha_low h = min3 (low b) (ha_open h) (ha_close h)
       /\ (high b <= ha_high h /\ ha_open h <= ha_high h /\ ha_close h <= ha_high h)
       /\ (ha_low h <= low b /\ ha_low h <= ha_open h /\ ha_low h <= ha_close h).
Proof.
  intros Hi. split; [apply ha_loop_length |].
  unfold heiken_ashi. rewrite (ha_loop_lookup bars None i b Hi).
  eexists. split; [reflexivity |].
  cbn [ha_step ha_open ha_high ha_low ha_close].
  split; [reflexivity |]. split; [| split; [| split; [reflexivity |
    split; [reflexivity | split; [apply max3_upper | apply min3_lower]]]]].
  - intros ->. reflexivity.
  - intros j ->.
    assert (Hj : is_Some (ha_loop None bars !! j)).
    { apply lookup_lt_is_Some. rewrite ha_loop_length.
      apply lookup_lt_Some in Hi. lia. }
    destruct Hj as [p Hp]. exists p. rewrite Hp. split; reflexivity.
Qed.

End HeikenAshiFacts.

(** Two bars: the first candle opens at the mean of the first bar's open and
    close, the second at the mean of the first candle's open and close. *)
Lemma heiken_ashi_recurrence_witness :
  exists h : Backend.HeikenAshiBar,
    Backend.heiken_ashi
      [Backend.mkBar 10 14 8 12 1; Backend.mkBar 12 16 11 15 2] !! 1%nat = Some h
    /\ (Backend.ha_close h == 27 # 2)%Q
    /\ (Backend.ha_open h == 11)%Q
    /\ (Backend.ha_high h == 16)%Q
    /\ (Backend.ha_low h == 11)%Q.
Proof.
  destruct (heiken_ashi_recurrence
              [Backend.mkBar 10 14 8 12 1; Backend.mkBar 12 16 11 15 2] 1%nat
              (Backend.mkBar 12 16 11 15 2) eq_refl)
    as (_ & h & Hh & Hc & _ & Ho & Hhi & Hlo & _).
  exists h. split; [exact Hh |].
  destruct (Ho 0%nat eq_refl) as (p & Hp & Hop).
  injection Hp as <-.
  rewrite Hhi, Hlo, Hop, Hc. vm_compute. repeat split; discriminate.
Defined.

(** * Further properties of the front end *)

(** ** TickerManager: how adding and removing compose *)

Section WatchlistEditing.

Import TickerManager.

Variable trim : string -> string.
Variable toUpperCase : string -> string.

Local Abbreviation symbol_of := (TickerManager.symbol_of trim toUpperCase).
Local Abbreviation addTicker := (TickerManager.addTicker trim toUpperCase).
Local Abbreviation step := (TickerManager.step trim toUpperCase).
Local Abbreviation run := (TickerManager.run trim toUpperCase).

(** Filtering out a symbol a list does not hold gives the list back. *)
Lemma filter_absent (sym : string) (l : list string) :
  sym ∉ l -> filter (λ t, t ≠ sym) l = l.
Proof.
  induction l as [| x l IH]; intros Hnot; [reflexivity |].
  apply not_elem_of_cons in Hnot as [Hne Hl].
  rewrite filter_cons_True by congruence. now rewrite IH.
Qed.

Lemma removeTicker_gone (sym : string) (st : state) :
  sym ∉ tickers (removeTicker sym st).
Proof. simpl. rewrite list_elem_of_filter. tauto. Qed.

(** X1. Removing the symbol that [addTicker] has just appended gives the
    list back as it was; and whatever the list, [removeTicker] leaves no
    occurrence of the symbol, keeps every other entry and does not touch the
    field. *)
Theorem removeTicker_undoes_addTicker (st : state) :
  (toUpperCase (trim (input st)) <> "" ->
   toUpperCase (trim (input st)) ∉ tickers st ->
   tickers (removeTicker (toUpperCase (trim (input st))) (addTicker st)) = tickers st)
  /\ (forall sym : string,
        (sym ∉ tickers (removeTicker sym st))
        /\ (forall t, t <> sym -> (t ∈ tickers (removeTicker sym st) <-> t ∈ tickers st))
        /\ input (removeTicker sym st) = input st).
Proof.
  split.
  - rewrite <- symbol_of_eq. intros Hne Hnot. simpl.
    rewrite (addTicker_tickers trim toUpperCase st Hne).
    apply includes_false in Hnot. rewrite Hnot.
    apply includes_false in Hnot.
    rewrite filter_app, (filter_absent _ _ Hnot).
    rewrite filter_cons_False by (intros H; now apply H).
    apply app_nil_r.
  - intros sym. split; [apply removeTicker_gone | split; [| reflexivity]].
    intros t Hne. simpl. rewrite list_elem_of_filter. tauto.
Qed.

(** After [addTicker] the symbol of the field is in the list, unless it is
    empty. *)
Lemma addTicker_has_symbol (st : state) :
  symbol_of (input st) <> "" -> symbol_of (input st) ∈ tickers (addTicker st).
Proof.
  intros Hne. rewrite (addTicker_tickers trim toUpperCase st Hne).
  destruct (includes (tickers st) (symbol_of (input st))) eqn:I.
  - now apply includes_true.
  - apply elem_of_app. right. now apply list_elem_of_singleton.
Qed.

(** X2. Typing the same text again and adding it a second time changes
    nothing: one [addTicker] has the effect of any number of them. *)
Theorem addTicker_twice (st : state) :
  tickers (addTicker (step (addTicker st) (SetInput (input st))))
  = tickers (addTicker st).
Proof.
  destruct (String.eqb_spec (symbol_of (input st)) "") as [E | E].
  - rewrite (addTicker_empty trim toUpperCase st E). simpl.
    now rewrite addTicker_empty.
  - rewrite addTicker_tickers by exact E. simpl.
    pose proof (addTicker_has_symbol st E) as Hin.
    apply includes_true in Hin. now rewrite Hin.
Qed.

(** Where the entries of the list come from, one handler at a time. *)
Lemma step_provenance (st : state) (a : action) (t : string) :
  t ∈ tickers (step st a) ->
  t ∈ tickers st \/ (t <> "" /\ a = AddTicker /\ t = symbol_of (input st)).
Proof.
  destruct a as [text | | sym]; simpl.
  - tauto.
  - destruct (String.eqb_spec (symbol_of (input st)) "") as [E | E].
    + rewrite (addTicker_empty trim toUpperCase st E). tauto.
    + rewrite addTicker_tickers by exact E.
      destruct (includes (tickers st) (symbol_of (input st))); [tauto |].
      rewrite elem_of_app, list_elem_of_singleton.
      intros [H | ->]; [tauto | right; tauto].
  - rewrite list_elem_of_filter. tauto.
Qed.

(** The field after a handler: what was typed, or what it was, or empty. *)
Lemma step_input (st : state) (a : action) :
  (exists text, a = SetInput text /\ input (step st a) = text)
  \/ input (step st a) = input st
  \/ input (step st a) = "".
Proof.
  destruct a as [text | | sym]; simpl; [left; eauto | | tauto].
  unfold TickerManager.addTicker.
  destruct (String.eqb (symbol_of (input st)) ""); simpl; tauto.
Qed.

Hypothesis blank_symbol : toUpperCase (trim "") = "".

Lemma run_provenance (acts : list action) :
  forall (st : state) (t : string),
    t ∈ tickers (run acts st) ->
    t ∈ tickers st
    \/ (t <> "" /\ (t = symbol_of (input st)
                    \/ exists text, SetInput text ∈ acts /\ t = symbol_of text)).
Proof.
  induction acts as [| a acts IH]; intros st t Hin; simpl in Hin; [tauto |].
  apply IH in Hin as [Hin | (Hne & [Hsym | (text & Htext & ->)])].
  - apply step_provenance in Hin as [Hin | (Hne & _ & ->)]; tauto.
  - right. split; [exact Hne |].
    destruct (step_input st a) as [(text & -> & Ht) | [Hsame | Hblank]].
    + right. exists text. split; [apply list_elem_of_here | congruence].
    + left. congruence.
    + exfalso. apply Hne. rewrite Hsym, Hblank, symbol_of_eq. exact blank_symbol.
  - right. split; [exact Hne |]. right. exists text.
    split; [now apply list_elem_of_further | reflexivity].
Qed.

(** X3. Whatever is typed, added and removed, starting from the empty
    editor, every entry of the list is the trimmed, upper-cased form of a
    text that was typed, and none is empty (an empty text giving an empty
    symbol, as [trim] and [toUpperCase] do). *)
Theorem watchlist_entries_are_symbols (acts : list action) (t : string) :
  t ∈ tickers (run acts initial) ->
  t <> "" /\ exists text, SetInput text ∈ acts /\ t = toUpperCase (trim text).
Proof.
  intros Hin. apply run_provenance in Hin as [Hin | (Hne & [Hsym | (text & Ht & ->)])].
  - now apply not_elem_of_nil in Hin.
  - exfalso. apply Hne. rewrite Hsym. simpl. rewrite symbol_of_eq. exact blank_symbol.
  - split; [exact Hne |]. exists text. split; [exact Ht | apply symbol_of_eq].
Qed.

End WatchlistEditing.

Lemma removeTicker_undoes_addTicker_witness :
  TickerManager.tickers
    (TickerManager.removeTicker "MSFT"
       (TickerManager.addTicker TickerManager.ascii_trim TickerManager.ascii_toUpperCase
          (TickerManager.mkState ["AAPL"; "TCS.NS"] " msft")))
  = ["AAPL"; "TCS.NS"].
Proof.
  apply (proj1 (removeTicker_undoes_addTicker TickerManager.ascii_trim
                  TickerManager.ascii_toUpperCase
                  (TickerManager.mkState ["AAPL"; "TCS.NS"] " msft"))).
  - discriminate.
  - simpl. intros H. apply elem_of_cons in H as [H | H]; [discriminate |].
    apply list_elem_of_singleton in H. discriminate.
Defined.

Lemma watchlist_entries_are_symbols_witness :
  "INFY.NS" <> ""
  /\ exists text,
       (TickerManager.SetInput text
        ∈ [TickerManager.SetInput "tcs.ns"; TickerManager.AddTicker;
           TickerManager.SetInput " infy.ns "; TickerManager.AddTicker;
           TickerManager.RemoveTicker "TCS.NS"])
       /\ "INFY.NS" = TickerManager.ascii_toUpperCase (TickerManager.ascii_trim text).
Proof.
  apply (watchlist_entries_are_symbols TickerManager.ascii_trim
           TickerManager.ascii_toUpperCase eq_refl
           [TickerManager.SetInput "tcs.ns"; TickerManager.AddTicker;
            TickerManager.SetInput " infy.ns "; TickerManager.AddTicker;
            TickerManager.RemoveTicker "TCS.NS"] "INFY.NS").
  vm_compute. apply list_elem_of_here.
Defined.

(** ** Signal chips *)

Section SignalChipFacts.

Import SignalChip.

Variable toLowerCase : string -> string.

Local Abbreviation signalToChip := (SignalChip.signalToChip toLowerCase).
Local Abbreviation getSignalColor := (SignalChip.getSignalColor toLowerCase).
Local Abbreviation row_chip := (SignalChip.row_chip toLowerCase).

Lemma signalToChip_string (text : string) :
  text <> "" ->
  signalToChip (JStr text)
  = Some (if String.eqb (toLowerCase text) "buy" then mkChip "BUY" "chip-buy"
          else if String.eqb (toLowerCase text) "sell" then mkChip "SELL" "chip-sell"
          else if String.eqb (toLowerCase text) "hold" then mkChip "HOLD" "chip-hold"
          else no_signal_chip).
Proof.
  intros Hne. unfold SignalChip.signalToChip, js_or. simpl.
  apply String.eqb_neq in Hne. rewrite Hne. reflexivity.
Qed.

Lemma signalToChip_falsy (v : jsval) :
  toLowerCase "" = "" -> truthy v = false -> signalToChip v = Some no_signal_chip.
Proof.
  intros Hlow Hf. unfold SignalChip.signalToChip, js_or. rewrite Hf, Hlow.
  reflexivity.
Qed.

(** X4. [signalToChip] throws exactly on a truthy value that is not a string
    (a number other than zero, [true], an object), and [getSignalColor]
    exactly on a value that is neither a string nor [null] nor [undefined].
    On every text the two read the same signal: the BUY chip goes with the
    buy colour, the SELL chip with the sell colour, the HOLD chip with the
    hold colour and the N/A chip with the default colour. *)
Theorem signal_chip_and_color_agree :
  (forall v : jsval,
     (signalToChip v = None <-> truthy v = true /\ forall text, v <> JStr text)
     /\ (getSignalColor v = None <->
         v <> JNull /\ v <> JUndefined /\ forall text, v <> JStr text))
  /\ (toLowerCase "" = "" ->
      forall text : string,
        exists c color,
          signalToChip (JStr text) = Some c
          /\ getSignalColor (JStr text) = Some color
          /\ (c = mkChip "BUY" "chip-buy" /\ color = "#00ff88"
              \/ c = mkChip "SELL" "chip-sell" /\ color = "#ff4757"
              \/ c = mkChip "HOLD" "chip-hold" /\ color = "#ffa502"
              \/ c = mkChip "N/A" "chip-neutral" /\ color = "#70a1ff")).
Proof.
  split.
  - intros v. split.
    + unfold SignalChip.signalToChip, js_or.
      destruct (truthy v) eqn:T.
      * destruct v as [| | b | x | text | fields]; simpl; split; intros H;
          try discriminate; try reflexivity;
          try (split; [reflexivity | discriminate]).
        destruct H as [_ H]. now contradiction (H text).
      * split; [discriminate | intros [H _]; discriminate].
    + destruct v as [| | b | x | text | fields]; simpl; split; intros H;
        try discriminate; try reflexivity; try (repeat split; discriminate).
      * destruct H as [_ [H _]]. now contradiction H.
      * destruct H as [H _]. now contradiction H.
      * destruct H as [_ [_ H]]. now contradiction (H text).
  - intros Hlow text.
    destruct (String.eqb_spec text "") as [-> | Hne].
    + exists no_signal_chip, "#70a1ff".
      split; [now apply signalToChip_falsy |]. simpl. rewrite Hlow. simpl.
      split; [reflexivity | tauto].
    + rewrite (signalToChip_string text Hne). simpl.
      destruct (String.eqb (toLowerCase text) "buy");
        [do 2 eexists; repeat split; tauto |].
      destruct (String.eqb (toLowerCase text) "sell");
        [do 2 eexists; repeat split; tauto |].
      destruct (String.eqb (toLowerCase text) "hold");
        do 2 eexists; repeat split; tauto.
Qed.

(** The signal of a row is the [final_signal] of the entry the batch left
    for the ticker. *)
Lemma row_signal_summary (m : gmap string jsval) (t : string) (v : jsval) :
  m !! t = Some (Dashboard.summary v) -> row_signal m t = v.
Proof. unfold row_signal. intros ->. reflexivity. Qed.

Lemma row_signal_missing (m : gmap string jsval) (t : string) :
  m !! t = None -> row_signal m t = JUndefined.
Proof. unfold row_signal. intros ->. reflexivity. Qed.

(** The signal a settled request leaves for the dashboard. *)
Lemma entry_of_signal (r : axios_result) :
  Dashboard.entry_of r
  = Dashboard.summary
      (match r with
       | Resolved data =>
           match get_prop data "final_signal" with
           | Some v => v
           | None => JStr "N/A"
           end
       | Rejected _ => JStr "N/A"
       end).
Proof.
  destruct r as [data | err]; [| reflexivity]. simpl.
  destruct (get_prop data "final_signal"); reflexivity.
Qed.

Lemma signalToChip_None (v : jsval) :
  signalToChip v = None <-> truthy v = true /\ forall text, v <> JStr text.
Proof.
  unfold SignalChip.signalToChip, js_or. destruct (truthy v) eqn:T.
  - destruct v as [| | b | x | text | fields]; simpl; split; intros H;
      try discriminate; try reflexivity; try (split; [reflexivity | discriminate]).
    destruct H as [_ H]. now contradiction (H text).
  - split; [discriminate | intros [H _]; discriminate].
Qed.

(** X5. The dashboard fed with the summaries of a batch.  The row of a
    ticker throws exactly when the last request for it brought a body whose
    [final_signal] is truthy and not a text (a number other than zero,
    [true], an object).  Otherwise it shows a chip: the N/A chip when that
    request failed, the chip of the text when [final_signal] is a text; and
    a ticker the batch did not cover gets the N/A chip. *)
Theorem dashboard_row_of_batch
    (net : nat -> string -> axios_result) (TICKERS : list string) :
  toLowerCase "" = "" -> toLowerCase "N/A" = "n/a" ->
  (forall i t, TICKERS !! i = Some t -> t ∉ drop (S i) TICKERS ->
     (row_chip (Dashboard.summaries net TICKERS) t = None <->
      exists data v,
        net i t = Resolved data /\ get_prop data "final_signal" = Some v
        /\ truthy v = true /\ forall text, v <> JStr text)
     /\ (forall err, net i t = Rejected err ->
         row_chip (Dashboard.summaries net TICKERS) t = Some (mkChip "N/A" "chip-neutral"))
     /\ (forall fields text,
           net i t = Resolved (JObj fields) -> assoc "final_signal" fields = JStr text ->
           row_chip (Dashboard.summaries net TICKERS) t = signalToChip (JStr text)
           /\ signalToChip (JStr text) <> None))
  /\ (forall t, t ∉ TICKERS ->
        row_chip (Dashboard.summaries net TICKERS) t = Some (mkChip "N/A" "chip-neutral")).
Proof.
  intros Hlow Hna. split.
  - intros i t Hi Hlast.
    pose proof (summaries_last net TICKERS i t Hi Hlast) as L.
    split; [| split].
    + rewrite entry_of_signal in L.
      unfold SignalChip.row_chip. rewrite (row_signal_summary _ _ _ L).
      rewrite signalToChip_None.
      destruct (net i t) as [data | err].
      * destruct (get_prop data "final_signal") as [v |] eqn:G.
        -- split.
           ++ intros [T N]. exists data, v. repeat split; assumption.
           ++ intros (d & w & [= <-] & Hw & T & N). rewrite G in Hw.
              injection Hw as <-. split; assumption.
        -- split.
           ++ intros [_ N]. now contradiction (N "N/A").
           ++ intros (d & w & [= <-] & Hw & _). congruence.
      * split.
        -- intros [_ N]. now contradiction (N "N/A").
        -- intros (d & w & H & _). discriminate.
    + intros err E. rewrite E in L. simpl in L.
      unfold SignalChip.row_chip. rewrite (row_signal_summary _ _ _ L).
      rewrite signalToChip_string by discriminate. rewrite Hna. reflexivity.
    + intros fields text E F. rewrite E in L. simpl in L. rewrite F in L.
      unfold SignalChip.row_chip. rewrite (row_signal_summary _ _ _ L).
      split; [reflexivity |].
      destruct (String.eqb_spec text "") as [-> | Hne].
      * rewrite signalToChip_falsy by (exact Hlow || reflexivity). discriminate.
      * rewrite signalToChip_string by exact Hne. discriminate.
  - intros t Hnot. unfold SignalChip.row_chip.
    rewrite row_signal_missing.
    + now apply signalToChip_falsy.
    + destruct (Dashboard.summaries net TICKERS !! t) eqn:E; [| reflexivity].
      exfalso. apply Hnot. apply (summaries_is_Some net). eauto.
Qed.

End SignalChipFacts.

Lemma signal_chip_and_color_agree_witness :
  SignalChip.signalToChip SignalChip.ascii_toLowerCase (JStr "Buy")
  = Some (SignalChip.mkChip "BUY" "chip-buy")
  /\ SignalChip.getSignalColor SignalChip.ascii_toLowerCase (JStr "Buy")
     = Some "#00ff88".
Proof.
  destruct (proj2 (signal_chip_and_color_agree SignalChip.ascii_toLowerCase) eq_refl "Buy")
    as (c & color & Hc & Hcolor & _).
  vm_compute in Hc, Hcolor. injection Hc as <-. injection Hcolor as <-.
  split; reflexivity.
Defined.

(** A body whose [final_signal] is the number 5 makes the row throw. *)
Example dashboard_row_throws_on_a_number :
  SignalChip.row_chip SignalChip.ascii_toLowerCase
    (Dashboard.summaries (fun _ _ => Resolved (JObj [("final_signal", JNum 5)])) ["A"])
    "A"
  = None.
Proof. reflexivity. Qed.

Lemma dashboard_row_of_batch_witness :
  SignalChip.row_chip SignalChip.ascii_toLowerCase
    (Dashboard.summaries Dashboard.sample_net ["A"; "B"]) "B"
  = Some (SignalChip.mkChip "N/A" "chip-neutral")
  /\ SignalChip.row_chip SignalChip.ascii_toLowerCase
       (Dashboard.summaries Dashboard.sample_net ["A"; "B"]) "A"
     = Some (SignalChip.mkChip "BUY" "chip-buy").
Proof.
  destruct (dashboard_row_of_batch SignalChip.ascii_toLowerCase Dashboard.sample_net
              ["A"; "B"] eq_refl eq_refl) as [Hrow _].
  split.
  - destruct (Hrow 1%nat "B" eq_refl) as (_ & Hfail & _).
    + simpl. apply not_elem_of_nil.
    + apply (Hfail ErrRequest). reflexivity.
  - destruct (Hrow 0%nat "A" eq_refl) as (_ & _ & Hok).
    + simpl. intros H. apply list_elem_of_singleton in H. discriminate.
    + destruct (Hok _ "BUY" eq_refl eq_refl) as [-> _]. reflexivity.
Defined.

(** ** App: saving the watchlist *)

Section WatchlistAppFacts.

Import WatchlistApp.

Variable net : nat -> string -> axios_result.

Local Abbreviation handleTickersSaved := (WatchlistApp.handleTickersSaved net).

Lemma handleTickersSaved_summaries (st : app) (first : string) (rest : list string) :
  summaries (handleTickersSaved st (first :: rest))
  = Dashboard.summaries net (TICKERS st).
Proof. simpl. now rewrite fetchDashboardSummaries_eq. Qed.

(** X6. After [handleTickersSaved] with a list that is not empty, the
    watchlist is that list, the selected ticker is on it (kept when the list
    has it, the first of the list otherwise) and the dialog is closed; with
    an empty list only the dialog changes.  So a save never leaves a ticker
    selected that is off the watchlist, if none was before. *)
Theorem handleTickersSaved_selection (st : app) (list : list string) :
  settingsOpen (handleTickersSaved st list) = false
  /\ (list = [] ->
      TICKERS (handleTickersSaved st list) = TICKERS st
      /\ selectedTicker (handleTickersSaved st list) = selectedTicker st
      /\ summaries (handleTickersSaved st list) = summaries st)
  /\ (list <> [] ->
      TICKERS (handleTickersSaved st list) = list
      /\ selectedTicker (handleTickersSaved st list) ∈ list
      /\ (selectedTicker st ∈ list ->
          selectedTicker (handleTickersSaved st list) = selectedTicker st)
      /\ (selectedTicker st ∉ list ->
          head list = Some (selectedTicker (handleTickersSaved st list))))
  /\ (selectedTicker st ∈ TICKERS st ->
      selectedTicker (handleTickersSaved st list)
      ∈ TICKERS (handleTickersSaved st list)).
Proof.
  destruct list as [| first rest].
  - simpl. repeat split; try reflexivity; tauto.
  - split; [reflexivity |]. split; [discriminate |].
    assert (Hsel : selectedTicker (handleTickersSaved st (first :: rest))
                   = if TickerManager.includes (first :: rest) (selectedTicker st)
                     then selectedTicker st else first) by reflexivity.
    assert (Hin : selectedTicker (handleTickersSaved st (first :: rest)) ∈ first :: rest).
    { rewrite Hsel.
      destruct (TickerManager.includes (first :: rest) (selectedTicker st)) eqn:I.
      - now apply includes_true.
      - apply list_elem_of_here. }
    split; [| intros _; exact Hin].
    intros _. split; [reflexivity |]. split; [exact Hin |]. split.
    + intros H. apply includes_true in H. now rewrite Hsel, H.
    + intros H. apply includes_false in H. now rewrite Hsel, H.
Qed.

(** X7. The summaries a save leaves are those of the watchlist as it was
    before the save: they have an entry for each of its tickers and for no
    other, so a ticker the save has just added has none, and the dashboard
    draws it with the N/A chip whatever the server would answer for it. *)
Theorem handleTickersSaved_summaries_are_of_old_watchlist
    (toLowerCase : string -> string) (st : app) (list : list string) :
  list <> [] -> toLowerCase "" = "" ->
  (forall t, is_Some (summaries (handleTickersSaved st list) !! t) <-> t ∈ TICKERS st)
  /\ (forall t, t ∈ list -> t ∉ TICKERS st ->
        t ∈ TICKERS (handleTickersSaved st list)
        /\ SignalChip.row_chip toLowerCase (summaries (handleTickersSaved st list)) t
           = Some (SignalChip.mkChip "N/A" "chip-neutral")).
Proof.
  intros Hne Hlow. destruct list as [| first rest]; [now contradiction Hne |].
  rewrite handleTickersSaved_summaries. split.
  - intros t. apply summaries_is_Some.
  - intros t Hin Hnot. split; [exact Hin |].
    unfold SignalChip.row_chip. rewrite row_signal_missing.
    + now apply signalToChip_falsy.
    + destruct (Dashboard.summaries net (TICKERS st) !! t) eqn:E; [| reflexivity].
      exfalso. apply Hnot. apply (summaries_is_Some net). eauto.
Qed.

Section SaveChanges.

Variable parent : Type.
Variable onSaved : option (list string -> parent -> settled parent).
Variable post : list string -> axios_result.

Local Abbreviation saveChanges := (WatchlistApp.saveChanges parent onSaved post).

(** X8. [saveChanges] never touches the list or the field and always ends
    with loading off.  The success message is set exactly when the post
    succeeded, the error exactly when the post failed or the callback threw;
    and the owner of the editor sees a change only through its callback,
    called with the very list that was posted, after a successful post. *)
Theorem saveChanges_outcome (p : panel) (up : parent) :
  editor (saveChanges p up).1 = editor p
  /\ loading (saveChanges p up).1 = false
  /\ (is_Some (success (saveChanges p up).1) <->
      exists data, post (TickerManager.tickers (editor p)) = Resolved data)
  /\ (is_Some (error (saveChanges p up).1) <->
      (exists err, post (TickerManager.tickers (editor p)) = Rejected err)
      \/ (exists callback, onSaved = Some callback
          /\ callback (TickerManager.tickers (editor p)) up = Threw))
  /\ ((saveChanges p up).2 = up
      \/ exists data callback,
           post (TickerManager.tickers (editor p)) = Resolved data
           /\ onSaved = Some callback
           /\ callback (TickerManager.tickers (editor p)) up
              = Fulfilled (saveChanges p up).2).
Proof.
  unfold WatchlistApp.saveChanges.
  destruct (post (TickerManager.tickers (editor p))) as [data | err].
  - destruct onSaved as [callback |].
    + destruct (callback (TickerManager.tickers (editor p)) up) as [up' |] eqn:C;
        simpl; repeat split; eauto; try (intros [? ?]; discriminate).
      * intros [(e & He) | (cb & [= <-] & Hcb)]; [discriminate | congruence].
      * right. exists data, callback. repeat split. exact C.
    + simpl. repeat split; eauto; try (intros [? ?]; discriminate).
      intros [(e & He) | (cb & Hcb & _)]; discriminate.
  - simpl. repeat split; eauto; try (intros [? ?]; discriminate).
Qed.

End SaveChanges.


End WatchlistAppFacts.

Lemma handleTickersSaved_selection_witness :
  WatchlistApp.selectedTicker
    (WatchlistApp.handleTickersSaved Dashboard.sample_net
       (WatchlistApp.mkApp ["RELIANCE.NS"; "INFY.NS"] ∅ "RELIANCE.NS" true)
       ["A"; "B"])
  ∈ ["A"; "B"].
Proof.
  destruct (handleTickersSaved_selection Dashboard.sample_net
              (WatchlistApp.mkApp ["RELIANCE.NS"; "INFY.NS"] ∅ "RELIANCE.NS" true)
              ["A"; "B"]) as (_ & _ & Hsaved & _).
  destruct Hsaved as (_ & Hin & _); [discriminate | exact Hin].
Defined.

Lemma handleTickersSaved_summaries_are_of_old_watchlist_witness :
  SignalChip.row_chip SignalChip.ascii_toLowerCase
    (WatchlistApp.summaries
       (WatchlistApp.handleTickersSaved Dashboard.sample_net
          (WatchlistApp.mkApp ["B"] ∅ "B" true) ["A"; "B"]))
    "A"
  = Some (SignalChip.mkChip "N/A" "chip-neutral").
Proof.
  destruct (handleTickersSaved_summaries_are_of_old_watchlist Dashboard.sample_net
              SignalChip.ascii_toLowerCase (WatchlistApp.mkApp ["B"] ∅ "B" true)
              ["A"; "B"]) as [_ Hnew]; [discriminate | reflexivity |].
  apply Hnew.
  - apply list_elem_of_here.
  - simpl. intros H. apply list_elem_of_singleton in H. discriminate.
Defined.


(** ** The position-size forms: what goes out and what is shown *)

Section FloatChecks.

(** A number that is not [NaN] and not [<= 0] is [> 0]. *)
Lemma positive_of_checks (x : float) :
  PrimFloat.is_nan x = false -> PrimFloat.leb x 0 = false -> PrimFloat.ltb 0 x = true.
Proof.
  unfold PrimFloat.is_nan. rewrite leb_spec, ltb_spec, FloatAxioms.eqb_spec.
  change (Prim2SF 0) with (S754_zero false).
  destruct (Prim2SF x) as [s | s | | s m e]; simpl; try discriminate;
    destruct s; simpl; try discriminate; reflexivity.
Qed.

Lemma get_prop_None (v : jsval) (name : string) :
  get_prop v name = None <-> loose_eq_null v = true.
Proof. destruct v; simpl; split; congruence. Qed.

End FloatChecks.

Section SingleFileFormFacts.

Import SingleFileApp.

Variable trim : string -> string.
Variable parseFloat_str : string -> float.
Variable api : request -> axios_result.

Local Abbreviation handleCalculatePositionSize :=
  (SingleFileApp.handleCalculatePositionSize trim parseFloat_str api).
Local Abbreviation passes_validation :=
  (SingleFileApp.passes_validation trim parseFloat_str).
Local Abbreviation request_of := (SingleFileApp.request_of parseFloat_str).

Ltac split_checks f :=
  unfold SingleFileApp.handleCalculatePositionSize, SingleFileApp.passes_validation;
  destruct (String.eqb (trim (accountSize f)) "" || String.eqb (trim (entryPrice f)) ""
            || String.eqb (trim (stopLossPrice f)) "");
  [| destruct (PrimFloat.is_nan (parseFloat_str (accountSize f))
               || PrimFloat.is_nan (parseFloat_str (entryPrice f))
               || PrimFloat.is_nan (parseFloat_str (stopLossPrice f)));
     [| destruct (PrimFloat.leb (parseFloat_str (accountSize f)) 0
                  || PrimFloat.leb (parseFloat_str (entryPrice f)) 0
                  || PrimFloat.leb (parseFloat_str (stopLossPrice f)) 0) ] ];
  cbn [negb andb].

(** The handler when a check fails: only the error message changes. *)
Lemma handle_invalid (f : form) :
  passes_validation f = false ->
  exists msg : string,
    msg <> ""
    /\ handleCalculatePositionSize f
       = mkOutcome (with_error f (JStr msg)) None false.
Proof.
  split_checks f; try discriminate; intros _; eexists; split;
    try reflexivity; discriminate.
Qed.

(** The handler when the checks pass: the request goes out and the answer
    decides. *)
Lemma handle_valid (f : form) :
  passes_validation f = true ->
  handleCalculatePositionSize f
  = match api (request_of f) with
    | Resolved data => mkOutcome (finished f data JNull) (Some (request_of f)) false
    | Rejected (ErrResponse data) =>
        match get_prop data "error" with
        | Some e =>
            mkOutcome
              (finished f JNull (js_or e (JStr "Position size calculation failed")))
              (Some (request_of f)) false
        | None => mkOutcome (finished f JNull JNull) (Some (request_of f)) true
        end
    | Rejected ErrRequest =>
        mkOutcome
          (finished f JNull
             (JStr "Unable to connect to calculation server. Please check if the backend is running."))
          (Some (request_of f)) false
    | Rejected ErrSetup =>
        mkOutcome
          (finished f JNull (JStr "An unexpected error occurred during calculation"))
          (Some (request_of f)) false
    end.
Proof. split_checks f; try discriminate. reflexivity. Qed.

Lemma passes_validation_positive (f : form) :
  passes_validation f = true ->
  PrimFloat.ltb 0 (parseFloat_str (accountSize f)) = true
  /\ PrimFloat.ltb 0 (parseFloat_str (entryPrice f)) = true
  /\ PrimFloat.ltb 0 (parseFloat_str (stopLossPrice f)) = true.
Proof.
  unfold SingleFileApp.passes_validation.
  rewrite !andb_true_iff, !negb_true_iff, !orb_false_iff.
  intros [[_ [[N1 N2] N3]] [[L1 L2] L3]].
  repeat split; now apply positive_of_checks.
Qed.

End SingleFileFormFacts.

Section RiskCalculatorFormFacts.

Import RiskCalculator.

Variable Number_str : string -> float.
Variable api : request -> axios_result.

Local Abbreviation calculate := (RiskCalculator.calculate Number_str api).
Local Abbreviation isInvalid := (RiskCalculator.isInvalid Number_str).
Local Abbreviation calculator_request := (RiskCalculator.calculator_request Number_str).

Lemma isInvalid_false (v : string) :
  isInvalid v = false -> v <> "" /\ PrimFloat.ltb 0 (Number_str v) = true.
Proof.
  unfold RiskCalculator.isInvalid. rewrite !orb_false_iff.
  intros [[E N] L]. split; [now apply String.eqb_neq |].
  now apply positive_of_checks.
Qed.

Lemma calculate_invalid (f : form) :
  isInvalid (accountSize f) || isInvalid (entryPrice f) || isInvalid (stopLossPrice f)
  = true ->
  calculate f
  = mkOutcome (with_error f (JStr "Please enter valid values (> 0)")) None false.
Proof. unfold RiskCalculator.calculate. intros ->. reflexivity. Qed.

Lemma calculate_valid (f : form) :
  isInvalid (accountSize f) || isInvalid (entryPrice f) || isInvalid (stopLossPrice f)
  = false ->
  calculate f
  = match api (calculator_request f) with
    | Resolved data =>
        mkOutcome (finished f data JNull) (Some (calculator_request f)) false
    | Rejected err =>
        mkOutcome
          (finished f JNull (js_or (response_error err) (JStr "Calculation failed")))
          (Some (calculator_request f)) false
    end.
Proof. unfold RiskCalculator.calculate. intros ->. reflexivity. Qed.

End RiskCalculatorFormFacts.

(** X10. Every request either form sends carries an account size, an entry
    price and a stop that are greater than zero: the checks in front of the
    request let nothing else through. *)
Theorem position_size_requests_are_positive :
  (forall (trim : string -> string) (parseFloat_str : string -> float)
          (api : request -> axios_result) (f : SingleFileApp.form) (req : request),
     issued (SingleFileApp.handleCalculatePositionSize trim parseFloat_str api f)
     = Some req ->
     PrimFloat.ltb 0 (account req) = true
     /\ PrimFloat.ltb 0 (entry req) = true
     /\ PrimFloat.ltb 0 (sl req) = true)
  /\ (forall (Number_str : string -> float) (api : request -> axios_result)
            (f : RiskCalculator.form) (req : request),
        issued (RiskCalculator.calculate Number_str api f) = Some req ->
        PrimFloat.ltb 0 (account req) = true
        /\ PrimFloat.ltb 0 (entry req) = true
        /\ PrimFloat.ltb 0 (sl req) = true).
Proof.
  split.
  - intros trim pfs api f req. rewrite handle_issued.
    destruct (SingleFileApp.passes_validation trim pfs f) eqn:V; [| discriminate].
    intros [= <-]. now apply passes_validation_positive in V.
  - intros Number_str api f req. rewrite calculate_issued.
    destruct (RiskCalculator.isInvalid Number_str (RiskCalculator.accountSize f)
              || RiskCalculator.isInvalid Number_str (RiskCalculator.entryPrice f)
              || RiskCalculator.isInvalid Number_str (RiskCalculator.stopLossPrice f))
      eqn:V; [discriminate |].
    intros [= <-]. apply orb_false_iff in V as [V Hs].
    apply orb_false_iff in V as [Ha He].
    apply isInvalid_false in Ha as [_ Ha], He as [_ He], Hs as [_ Hs].
    repeat split; assumption.
Qed.

(** X11. An exception escapes [handleCalculatePositionSize] exactly when its
    checks pass and the server answers with an error status and a body that
    is [null] or missing; the form is then left with loading off and neither
    a result nor an error message.  No exception escapes [calculate]. *)
Theorem position_size_forms_exceptions :
  (forall (trim : string -> string) (parseFloat_str : string -> float)
          (api : request -> axios_result) (f : SingleFileApp.form),
     (escaped (SingleFileApp.handleCalculatePositionSize trim parseFloat_str api f) = true
      <-> SingleFileApp.passes_validation trim parseFloat_str f = true
          /\ exists data,
               api (SingleFileApp.request_of parseFloat_str f) = Rejected (ErrResponse data)
               /\ (data = JNull \/ data = JUndefined))
     /\ (escaped (SingleFileApp.handleCalculatePositionSize trim parseFloat_str api f) = true ->
         after (SingleFileApp.handleCalculatePositionSize trim parseFloat_str api f)
         = SingleFileApp.finished f JNull JNull))
  /\ (forall (Number_str : string -> float) (api : request -> axios_result)
            (f : RiskCalculator.form),
        escaped (RiskCalculator.calculate Number_str api f) = false).
Proof.
  split.
  - intros trim pfs api f.
    destruct (SingleFileApp.passes_validation trim pfs f) eqn:V.
    + rewrite (handle_valid trim pfs api f V).
      destruct (api (SingleFileApp.request_of pfs f)) as [data | [data | |]]; simpl.
      * split; [split; [discriminate | intros [_ (d & H & _)]; discriminate] | discriminate].
      * destruct (get_prop data "error") eqn:G; simpl.
        -- split; [| discriminate]. split; [discriminate |].
           intros [_ (d & [= <-] & Hd)].
           assert (get_prop data "error" = None) as G'
             by (apply get_prop_None, loose_eq_null_true; exact Hd).
           congruence.
        -- split; [| reflexivity]. split; [| reflexivity].
           intros _. split; [reflexivity |]. exists data. split; [reflexivity |].
           now apply loose_eq_null_true, get_prop_None with (name := "error").
      * split; [split; [discriminate | intros [_ (d & H & _)]; discriminate] | discriminate].
      * split; [split; [discriminate | intros [_ (d & H & _)]; discriminate] | discriminate].
    + destruct (handle_invalid trim pfs api f V) as (msg & _ & ->). simpl.
      split; [split; [discriminate | intros [H _]; discriminate] | discriminate].
  - intros Number_str api f.
    destruct (RiskCalculator.isInvalid Number_str (RiskCalculator.accountSize f)
              || RiskCalculator.isInvalid Number_str (RiskCalculator.entryPrice f)
              || RiskCalculator.isInvalid Number_str (RiskCalculator.stopLossPrice f))
      eqn:V.
    + now rewrite calculate_invalid.
    + rewrite calculate_valid by exact V.
      destruct (api (RiskCalculator.calculator_request Number_str f)); reflexivity.
Qed.

(** X12. What the two forms show afterwards.  When a check fails, only the
    error message changes: the result of an earlier calculation stays.  When
    the request went out, loading is off, and a result that is not [null] is
    the body the server resolved with and comes with no error message, so a
    result and an error are never shown together after a request. *)
Theorem position_size_forms_display :
  (forall (trim : string -> string) (parseFloat_str : string -> float)
          (api : request -> axios_result) (f : SingleFileApp.form),
     (issued (SingleFileApp.handleCalculatePositionSize trim parseFloat_str api f) = None ->
      exists msg : string,
        msg <> ""
        /\ after (SingleFileApp.handleCalculatePositionSize trim parseFloat_str api f)
           = SingleFileApp.with_error f (JStr msg))
     /\ (forall req,
           issued (SingleFileApp.handleCalculatePositionSize trim parseFloat_str api f)
           = Some req ->
           SingleFileApp.positionSizeLoading
             (after (SingleFileApp.handleCalculatePositionSize trim parseFloat_str api f))
           = false
           /\ (SingleFileApp.positionSizeResult
                 (after (SingleFileApp.handleCalculatePositionSize trim parseFloat_str api f))
               = JNull
               \/ api req
                  = Resolved
                      (SingleFileApp.positionSizeResult
                         (after (SingleFileApp.handleCalculatePositionSize trim
                                   parseFloat_str api f)))
                  /\ SingleFileApp.positionSizeError
                       (after (SingleFileApp.handleCalculatePositionSize trim
                                 parseFloat_str api f))
                     = JNull)))
  /\ (forall (Number_str : string -> float) (api : request -> axios_result)
            (f : RiskCalculator.form),
        (issued (RiskCalculator.calculate Number_str api f) = None ->
         after (RiskCalculator.calculate Number_str api f)
         = RiskCalculator.with_error f (JStr "Please enter valid values (> 0)"))
        /\ (forall req,
              issued (RiskCalculator.calculate Number_str api f) = Some req ->
              RiskCalculator.loading (after (RiskCalculator.calculate Number_str api f))
              = false
              /\ (RiskCalculator.result (after (RiskCalculator.calculate Number_str api f))
                  = JNull
                  \/ api req
                     = Resolved
                         (RiskCalculator.result
                            (after (RiskCalculator.calculate Number_str api f)))
                     /\ RiskCalculator.error
                          (after (RiskCalculator.calculate Number_str api f))
                        = JNull))).
Proof.
  split.
  - intros trim pfs api f.
    destruct (SingleFileApp.passes_validation trim pfs f) eqn:V.
    + rewrite (handle_valid trim pfs api f V).
      destruct (api (SingleFileApp.request_of pfs f)) as [data | [data | |]] eqn:A;
        try destruct (get_prop data "error"); simpl;
        (split; [discriminate | intros req [= <-]; split; [reflexivity |]]);
        first [right; split; [exact A | reflexivity] | left; reflexivity].
    + destruct (handle_invalid trim pfs api f V) as (msg & Hmsg & ->). simpl.
      split; [intros _; eauto | discriminate].
  - intros Number_str api f.
    destruct (RiskCalculator.isInvalid Number_str (RiskCalculator.accountSize f)
              || RiskCalculator.isInvalid Number_str (RiskCalculator.entryPrice f)
              || RiskCalculator.isInvalid Number_str (RiskCalculator.stopLossPrice f))
      eqn:V.
    + rewrite calculate_invalid by exact V. simpl.
      split; [reflexivity | discriminate].
    + rewrite calculate_valid by exact V.
      destruct (api (RiskCalculator.calculator_request Number_str f)) as [data | err] eqn:A;
        simpl; (split; [discriminate | intros req [= <-]; split; [reflexivity |]]);
        first [right; split; [exact A | reflexivity] | left; reflexivity].
Qed.

Lemma position_size_requests_are_positive_witness :
  PrimFloat.ltb 0 100000 = true /\ PrimFloat.ltb 0 100 = true /\ PrimFloat.ltb 0 95 = true.
Proof.
  apply (proj1 position_size_requests_are_positive TickerManager.ascii_trim
           sample_number sample_rejecting_api
           (SingleFileApp.mkForm "100000" "100" "95" false JNull JNull)
           (mkRequest 100000 1 100 95)).
  reflexivity.
Defined.

Lemma position_size_forms_exceptions_witness :
  escaped
    (SingleFileApp.handleCalculatePositionSize TickerManager.ascii_trim sample_number
       (fun _ => Rejected (ErrResponse JNull))
       (SingleFileApp.mkForm "100000" "100" "95" false JNull JNull))
  = true.
Proof.
  apply (proj1 position_size_forms_exceptions TickerManager.ascii_trim sample_number
           (fun _ => Rejected (ErrResponse JNull))
           (SingleFileApp.mkForm "100000" "100" "95" false JNull JNull)).
  split; [reflexivity |]. exists JNull. split; [reflexivity | now left].
Defined.

(** ** App.js: [handleAnalyze] *)

Section AnalyzeFormFacts.

Import AnalyzeForm.

Variable trim : string -> string.
Variable toUpperCase : string -> string.
Variable analyze : string -> axios_result.

Local Abbreviation handleAnalyze := (AnalyzeForm.handleAnalyze trim toUpperCase analyze).

(** X13. [handleAnalyze] sends no request for a blank ticker and then
    changes nothing but the error message.  Otherwise it asks for the
    analysis of the trimmed, upper-cased text, the symbol the watchlist editor
    would store for the same text, and ends with loading off.  [hasAnalyzed]
    is never reset, and it becomes true only with the results of a successful
    request. *)
Theorem handleAnalyze_request (f : form) :
  (trim (ticker f) = "" ->
   requested (handleAnalyze f) = None
   /\ escaped (handleAnalyze f) = false
   /\ after (handleAnalyze f)
      = {| ticker := ticker f; loading := loading f; results := results f;
           error := JStr "Please enter a valid ticker symbol";
           hasAnalyzed := hasAnalyzed f |})
  /\ (trim (ticker f) <> "" ->
      requested (handleAnalyze f)
      = Some (TickerManager.symbol_of trim toUpperCase (ticker f))
      /\ loading (after (handleAnalyze f)) = false
      /\ ticker (after (handleAnalyze f)) = ticker f)
  /\ (hasAnalyzed f = true -> hasAnalyzed (after (handleAnalyze f)) = true)
  /\ (hasAnalyzed f = false -> hasAnalyzed (after (handleAnalyze f)) = true ->
      analyze (toUpperCase (trim (ticker f))) = Resolved (results (after (handleAnalyze f)))
      /\ error (after (handleAnalyze f)) = JNull).
Proof.
  unfold AnalyzeForm.handleAnalyze.
  destruct (String.eqb_spec (trim (ticker f)) "") as [E | E].
  - simpl. split; [intros _; repeat split |].
    split; [intros H; now contradiction H |].
    split; [tauto | congruence].
  - split; [intros H; now contradiction E |].
    rewrite symbol_of_eq.
    destruct (analyze (toUpperCase (trim (ticker f)))) as [data | [data | |]] eqn:A;
      try destruct (get_prop data "error"); simpl;
      repeat split; try tauto; congruence.
Qed.

End AnalyzeFormFacts.

Lemma handleAnalyze_request_witness :
  AnalyzeForm.requested
    (AnalyzeForm.handleAnalyze TickerManager.ascii_trim TickerManager.ascii_toUpperCase
       (fun _ => Resolved Dashboard.sample_analysis)
       (AnalyzeForm.mkForm " reliance.ns " false JNull JNull false))
  = Some "RELIANCE.NS".
Proof.
  destruct (handleAnalyze_request TickerManager.ascii_trim TickerManager.ascii_toUpperCase
              (fun _ => Resolved Dashboard.sample_analysis)
              (AnalyzeForm.mkForm " reliance.ns " false JNull JNull false))
    as (_ & Hreq & _).
  destruct Hreq as [Hreq _]; [discriminate | exact Hreq].
Defined.

(** ** JournalView.js: rows and the Close Trade dialog *)

Section JournalRowsFacts.

Import JournalRows.

Variable Number_str : string -> float.
Variable toFixed2 : float -> string.
Variable parseFloat_str : string -> float.

Local Abbreviation render_row :=
  (JournalRows.render_row Number_str toFixed2 parseFloat_str).
Local Abbreviation calcPnL := (JournalView.calcPnL parseFloat_str).

(** [calcPnL] returns [null] or a number, nothing else. *)
Lemma calcPnL_range (t : JournalView.TradeRecord) :
  calcPnL t = JNull \/ exists x : float, calcPnL t = JNum x.
Proof.
  unfold JournalView.calcPnL.
  destruct (negb _ || _); [now left |].
  destruct (strict_eq_str (JournalView.trade_type t) "LONG"); [right; eauto |].
  destruct (strict_eq_str (JournalView.trade_type t) "SHORT"); [right; eauto |].
  now left.
Qed.

(** X14. A row of the journal never fails to render its P&L cell: the text
    is ['-'] or the number with two decimals.  A row that offers the Close
    Trade button, and more generally every row of a trade that is not closed
    or has no exit price, shows ['-'] in NeonBlue; the cell is green only for
    a P&L that is a number above zero and red only for one below zero. *)
Theorem journal_row_pnl_cell (t : JournalView.TradeRecord) :
  (pnl_text (render_row t) = Some "-" /\ calcPnL t = JNull
   \/ exists x : float, calcPnL t = JNum x /\ pnl_text (render_row t) = Some (toFixed2 x))
  /\ (close_button (render_row t) = true ->
      JournalView.status t = JStr "OPEN"
      /\ pnl_text (render_row t) = Some "-"
      /\ pnl_color (render_row t) = NeonBlue
      /\ status_color (render_row t) = NeonGreen)
  /\ (JournalView.status t <> JStr "CLOSED" \/ JournalView.exit_price t = JNull
      \/ JournalView.exit_price t = JUndefined ->
      pnl_text (render_row t) = Some "-" /\ pnl_color (render_row t) = NeonBlue)
  /\ (pnl_color (render_row t) = NeonGreen ->
      exists x : float, calcPnL t = JNum x /\ PrimFloat.ltb 0 x = true)
  /\ (pnl_color (render_row t) = NeonRed ->
      exists x : float, calcPnL t = JNum x /\ PrimFloat.ltb x 0 = true).
Proof.
  unfold JournalRows.render_row. cbn [pnl_text pnl_color close_button status_color].
  split; [| split; [| split; [| split]]].
  - destruct (calcPnL_range t) as [-> | (x & ->)]; [left | right; exists x];
      split; reflexivity.
  - intros Hopen. pose proof Hopen as Hs. apply strict_eq_str_true in Hs.
    rewrite (calcPnL_first_return parseFloat_str t)
      by (left; rewrite Hs; discriminate).
    unfold StatusChip_color. rewrite Hopen. repeat split. exact Hs.
  - intros H. rewrite (calcPnL_first_return parseFloat_str t H). split; reflexivity.
  - destruct (calcPnL_range t) as [-> | (x & ->)]; [discriminate |].
    unfold PnLCell_color. simpl.
    destruct (PrimFloat.ltb 0 x) eqn:G; [eauto |].
    destruct (PrimFloat.ltb x 0); discriminate.
  - destruct (calcPnL_range t) as [-> | (x & ->)]; [discriminate |].
    unfold PnLCell_color. simpl.
    destruct (PrimFloat.ltb 0 x) eqn:G; [discriminate |].
    destruct (PrimFloat.ltb x 0) eqn:L; [eauto | discriminate].
Qed.

End JournalRowsFacts.

Lemma journal_row_pnl_cell_witness :
  JournalRows.pnl_text
    (JournalRows.render_row (fun _ => PrimFloat.nan) (fun _ => "20.00")
       (fun _ => PrimFloat.nan)
       (JournalView.mkTrade (JStr "OPEN") JNull (JNum 100) (JStr "LONG")))
  = Some "-"
  /\ JournalRows.pnl_color
       (JournalRows.render_row (fun _ => PrimFloat.nan) (fun _ => "20.00")
          (fun _ => PrimFloat.nan)
          (JournalView.mkTrade (JStr "OPEN") JNull (JNum 100) (JStr "LONG")))
     = JournalRows.NeonBlue.
Proof.
  destruct (journal_row_pnl_cell (fun _ => PrimFloat.nan) (fun _ => "20.00")
              (fun _ => PrimFloat.nan)
              (JournalView.mkTrade (JStr "OPEN") JNull (JNum 100) (JStr "LONG")))
    as (_ & Hopen & _).
  destruct (Hopen eq_refl) as (_ & Htext & Hcolor & _). split; assumption.
Defined.

Section CloseDialogFacts.

Import JournalRows.

Variable Number_str : string -> float.
Variable parseFloat_str : string -> float.
Variable server : close_request -> fetch_result.

Local Abbreviation handleConfirmClose :=
  (JournalRows.handleConfirmClose Number_str parseFloat_str server).

(** [v || d] is truthy as soon as [d] is. *)
Lemma truthy_js_or (v d : jsval) : truthy d = true -> truthy (js_or v d) = true.
Proof. intros H. unfold js_or. destruct (truthy v) eqn:T; assumption. Qed.

(** The four ways [handleConfirmClose] can go. *)
Lemma handleConfirmClose_cases (d : dialog) :
  ((exitPrice d = "" \/ PrimFloat.is_nan (Number_str (exitPrice d)) = true)
   /\ handleConfirmClose d
      = mkCloseOutcome
          (with_error d (JStr "Please enter a valid exit price.") (closing d))
          None false)
  \/ (exitPrice d <> "" /\ PrimFloat.is_nan (Number_str (exitPrice d)) = false
      /\ ((get_prop (selectedTrade d) "id" = None
           /\ handleConfirmClose d
              = mkCloseOutcome (with_error d (JStr "Network error.") false) None false)
          \/ exists id,
               get_prop (selectedTrade d) "id" = Some id
               /\ ((server (mkClose id (parseFloat_str (exitPrice d))) = FetchOk
                    /\ handleConfirmClose d
                       = mkCloseOutcome
                           {| modalOpen := false; selectedTrade := JNull;
                              exitPrice := ""; closing := false; error := JStr "" |}
                           (Some (mkClose id (parseFloat_str (exitPrice d)))) true)
                   \/ (server (mkClose id (parseFloat_str (exitPrice d))) <> FetchOk
                       /\ exists msg,
                            truthy msg = true
                            /\ handleConfirmClose d
                               = mkCloseOutcome (with_error d msg false)
                                   (Some (mkClose id (parseFloat_str (exitPrice d))))
                                   false)))).
Proof.
  unfold JournalRows.handleConfirmClose.
  destruct (String.eqb_spec (exitPrice d) "") as [E | E]; cbn [orb];
    [left; split; [now left | reflexivity] |].
  destruct (PrimFloat.is_nan (Number_str (exitPrice d))) eqn:N;
    [left; split; [now right | reflexivity] |].
  right. split; [exact E | split; [reflexivity |]].
  destruct (get_prop (selectedTrade d) "id") as [id |];
    [right; exists id; split; [reflexivity |] | left; split; reflexivity].
  destruct (server {| trade_id := id; sent_exit_price := parseFloat_str (exitPrice d) |})
    as [| [err |] |].
  - left. split; reflexivity.
  - right. split; [discriminate |].
    destruct (get_prop err "error") as [e |]; eexists; (split; [| reflexivity]);
      [apply truthy_js_or |]; reflexivity.
  - right. split; [discriminate |]. eexists; (split; [| reflexivity]); reflexivity.
  - right. split; [discriminate |]. eexists; (split; [| reflexivity]); reflexivity.
Qed.

(** X15. Closing a trade from the dialog.  A request goes out only for a
    price text that is not empty and that [Number] reads as a number, with
    the [id] of the selected trade and the price as [parseFloat] reads it.
    The dialog is closed and emptied and the journal is fetched again
    exactly when that request was answered with an ok status; in every other
    case the dialog, its trade and the typed price stay as they were and an
    error message is shown.  Once the price has passed the check, the
    handler ends with [closing] off. *)
Theorem handleConfirmClose_outcome (d : dialog) :
  (forall req, sent (handleConfirmClose d) = Some req ->
     exitPrice d <> ""
     /\ PrimFloat.is_nan (Number_str (exitPrice d)) = false
     /\ get_prop (selectedTrade d) "id" = Some (trade_id req)
     /\ sent_exit_price req = parseFloat_str (exitPrice d))
  /\ (refetched (handleConfirmClose d) = true <->
      exists req, sent (handleConfirmClose d) = Some req /\ server req = FetchOk)
  /\ (refetched (handleConfirmClose d) = true ->
      dialog_after (handleConfirmClose d)
      = {| modalOpen := false; selectedTrade := JNull; exitPrice := "";
           closing := false; error := JStr "" |})
  /\ (refetched (handleConfirmClose d) = false ->
      modalOpen (dialog_after (handleConfirmClose d)) = modalOpen d
      /\ selectedTrade (dialog_after (handleConfirmClose d)) = selectedTrade d
      /\ exitPrice (dialog_after (handleConfirmClose d)) = exitPrice d
      /\ truthy (error (dialog_after (handleConfirmClose d))) = true)
  /\ (exitPrice d <> "" -> PrimFloat.is_nan (Number_str (exitPrice d)) = false ->
      closing (dialog_after (handleConfirmClose d)) = false).
Proof.
  destruct (handleConfirmClose_cases d)
    as [[Hbad ->] | (E & N & [[G ->] | (id & G & [[S ->] | (S & msg & Hmsg & ->)])])];
    cbn;
    (split; [intros req H;
             first [discriminate H
                   | injection H as <-; repeat split; first [assumption | reflexivity]] |]).
  - split; [split; [discriminate | intros (req & H & _); discriminate] |].
    split; [discriminate |]. split; [intros _; repeat split |].
    intros Hne Hnum. destruct Hbad as [Hbad | Hbad]; [now contradiction | congruence].
  - split; [split; [discriminate | intros (req & H & _); discriminate] |].
    split; [discriminate |]. split; [intros _; repeat split | reflexivity].
  - split; [split; [intros _ | reflexivity] |].
    + exists (mkClose id (parseFloat_str (exitPrice d))). split; [reflexivity | exact S].
    + split; [reflexivity |]. split; [discriminate | reflexivity].
  - split; [split; [discriminate | intros (req & [= <-] & H); contradiction] |].
    split; [discriminate |]. split; [intros _; repeat split; exact Hmsg | reflexivity].
Qed.

End CloseDialogFacts.

Lemma handleConfirmClose_outcome_witness :
  JournalRows.modalOpen
    (JournalRows.dialog_after
       (JournalRows.handleConfirmClose sample_number sample_number
          (fun _ => JournalRows.FetchOk)
          (JournalRows.mkDialog true (JObj [("id", JNum 7)]) "95" false (JStr ""))))
  = false.
Proof.
  destruct (handleConfirmClose_outcome sample_number sample_number
              (fun _ => JournalRows.FetchOk)
              (JournalRows.mkDialog true (JObj [("id", JNum 7)]) "95" false (JStr "")))
    as (_ & _ & Hok & _).
  rewrite Hok; reflexivity.
Defined.

(** ** AnalysisBreakdown.js: [prettyName] *)

Section PrettyNameFacts.

Import Breakdown.

Lemma upper_char_idempotent (c : ascii) :
  TickerManager.upper_char (TickerManager.upper_char c) = TickerManager.upper_char c.
Proof. destruct c as [[] [] [] [] [] [] [] []]; reflexivity. Qed.

Lemma upper_char_is_word (c : ascii) :
  is_word (TickerManager.upper_char c) = is_word c.
Proof. destruct c as [[] [] [] [] [] [] [] []]; reflexivity. Qed.

Lemma upper_char_underscore (c : ascii) :
  Ascii.eqb (TickerManager.upper_char c) "_" = Ascii.eqb c "_".
Proof. destruct c as [[] [] [] [] [] [] [] []]; reflexivity. Qed.

Lemma underscores_to_spaces_clean (s : string) :
  no_underscore (underscores_to_spaces s) = true.
Proof.
  induction s as [| c s IH]; [reflexivity |]. simpl.
  rewrite IH, andb_true_r. destruct (Ascii.eqb c "_") eqn:E; [reflexivity |].
  now rewrite E.
Qed.

Lemma underscores_to_spaces_id (s : string) :
  no_underscore s = true -> underscores_to_spaces s = s.
Proof.
  induction s as [| c s IH]; [reflexivity |]. simpl.
  intros [Hc Hs]%andb_true_iff. apply negb_true_iff in Hc.
  now rewrite Hc, IH.
Qed.

Lemma capitalize_words_clean (b : bool) (s : string) :
  no_underscore s = true -> no_underscore (capitalize_words b s) = true.
Proof.
  revert b. induction s as [| c s IH]; intros b; [reflexivity |]. simpl.
  intros [Hc Hs]%andb_true_iff. rewrite IH by exact Hs. rewrite andb_true_r.
  destruct (is_word c && negb b); [| exact Hc].
  now rewrite upper_char_underscore.
Qed.

Lemma capitalize_words_idempotent (b : bool) (s : string) :
  capitalize_words b (capitalize_words b s) = capitalize_words b s.
Proof.
  revert b. induction s as [| c s IH]; intros b; [reflexivity |]. simpl.
  destruct (is_word c && negb b) eqn:W.
  - rewrite upper_char_is_word. rewrite W, upper_char_idempotent. now rewrite IH.
  - rewrite W. now rewrite IH.
Qed.

Lemma capitalize_words_length (b : bool) (s : string) :
  String.length (capitalize_words b s) = String.length s.
Proof.
  revert b. induction s as [| c s IH]; intros b; [reflexivity |]. simpl.
  now rewrite IH.
Qed.

Lemma underscores_to_spaces_length (s : string) :
  String.length (underscores_to_spaces s) = String.length s.
Proof. induction s as [| c s IH]; [reflexivity |]. simpl. now rewrite IH. Qed.

(** X16. [prettyName] keeps the length of the key, leaves no underscore in
    it, and applied to its own result changes nothing; it turns
    [heiken_ashi] into [Heiken Ashi] and [bollinger_bands] into
    [Bollinger Bands]. *)
Theorem prettyName_properties :
  (forall key : string,
     String.length (prettyName key) = String.length key
     /\ no_underscore (prettyName key) = true
     /\ prettyName (prettyName key) = prettyName key)
  /\ prettyName "heiken_ashi" = "Heiken Ashi"
  /\ prettyName "bollinger_bands" = "Bollinger Bands"
  /\ prettyName "rsi" = "Rsi".
Proof.
  split; [| repeat split].
  intros key. unfold prettyName. split; [| split].
  - now rewrite capitalize_words_length, underscores_to_spaces_length.
  - apply capitalize_words_clean, underscores_to_spaces_clean.
  - rewrite (underscores_to_spaces_id (capitalize_words false _)).
    + apply capitalize_words_idempotent.
    + apply capitalize_words_clean, underscores_to_spaces_clean.
Qed.

End PrettyNameFacts.
